(** * aqsatravels: sale entry form and sales dashboards

    A shallow embedding of the point-of-sale form
    ([src/components/product-entry-form.tsx]) and of the three sales
    dashboards of the repository, with the properties the specification
    states about them.

    Modelling conventions.
    - A JavaScript [number] is an exact rational, or [NaN]: type [number]
      below.  IEEE-754 rounding and the infinities are outside the model;
      the concrete evaluations below come out the same in doubles.
    - A JavaScript string is a [string]; [parseInt], [parseFloat], [trim]
      and [toFixed] work on the characters, following ECMA-262.
    - A React component is its state record; an event handler is a function
      on the state, and the effect hooks are run until the dependencies
      stop changing ([rerender]).
    - A [Date] is the number of milliseconds of local civil time since
      1970-01-01T00:00 (time zones are outside the model). *)

From Stdlib Require Import ZArith QArith Qround Qabs Qminmax List String Ascii Bool Lia Lqa.
Import ListNotations.

Local Open Scope string_scope.
Local Open Scope Z_scope.

(* ================================================================== *)
(** * JavaScript primitives *)
(* ================================================================== *)

Module JS.

(** A [number]: [None] is [NaN]. *)
Definition number : Type := option Q.

Definition NaN : number := None.
Definition num (q : Q) : number := Some q.

Definition isNaN (x : number) : bool :=
  match x with None => true | Some _ => false end.

Definition Qltb (a b : Q) : bool := negb (Qle_bool b a).

Definition mul (a b : number) : number :=
  match a, b with Some x, Some y => Some (x * y)%Q | _, _ => None end.

Definition sub (a b : number) : number :=
  match a, b with Some x, Some y => Some (x - y)%Q | _, _ => None end.

(** [a < b]; any comparison with [NaN] is false. *)
Definition lt (a b : number) : bool :=
  match a, b with Some x, Some y => Qltb x y | _, _ => false end.

Definition gt (a b : number) : bool := lt b a.

Definition ge (a b : number) : bool :=
  match a, b with Some x, Some y => Qle_bool y x | _, _ => false end.

(** [x || 0]: [NaN] and zero are falsy. *)
Definition or_zero (x : number) : Q :=
  match x with
  | Some q => if Qeq_bool q 0 then 0%Q else q
  | None => 0%Q
  end.

(** A string is truthy when it is not empty. *)
Definition nonempty (s : string) : bool :=
  match s with EmptyString => false | _ => true end.

(** ** Characters *)

Definition is_digit (c : ascii) : bool :=
  let n := nat_of_ascii c in ((48 <=? n) && (n <=? 57))%nat.

Definition digit_val (c : ascii) : Z := Z.of_nat (nat_of_ascii c - 48).

Definition digit_char (d : Z) : ascii := ascii_of_nat (48 + Z.to_nat d).

(** White space of [StrWhiteSpaceChar] in the 8-bit range: TAB, LF, VT, FF,
    CR, SP and NBSP. *)
Definition is_space (c : ascii) : bool :=
  let n := nat_of_ascii c in
  ((9 <=? n) && (n <=? 13) || (n =? 32) || (n =? 160))%nat.

Fixpoint skip_ws (s : string) : string :=
  match s with
  | String c r => if is_space c then skip_ws r else s
  | EmptyString => EmptyString
  end.

Fixpoint rev_string (acc s : string) : string :=
  match s with
  | String c r => rev_string (String c acc) r
  | EmptyString => acc
  end.

(** [String.prototype.trim]. *)
Definition trim (s : string) : string :=
  rev_string "" (skip_ws (rev_string "" (skip_ws s))).

(** The longest prefix of decimal digits, and what follows it. *)
Fixpoint span_digits (s : string) : string * string :=
  match s with
  | String c r =>
      if is_digit c
      then let '(ds, rest) := span_digits r in (String c ds, rest)
      else (EmptyString, s)
  | EmptyString => (EmptyString, EmptyString)
  end.

(** The value of a run of digits, most significant first. *)
Fixpoint digits_value (acc : Z) (s : string) : Z :=
  match s with
  | String c r => digits_value (acc * 10 + digit_val c) r
  | EmptyString => acc
  end.

(** An optional sign: [(negative, rest)]. *)
Definition read_sign (s : string) : bool * string :=
  match s with
  | String "-" r => (true, r)
  | String "+" r => (false, r)
  | _ => (false, s)
  end.

(** [parseInt(s, 10)]: leading white space, an optional sign, then the
    longest run of digits; [NaN] when there is no digit. *)
Definition parseInt (s : string) : option Z :=
  let '(neg, s1) := read_sign (skip_ws s) in
  let '(ds, _) := span_digits s1 in
  match ds with
  | EmptyString => None
  | _ => let v := digits_value 0 ds in Some (if neg then - v else v)
  end.

(** The exponent part [e[+-]ddd] when it is well formed, else 0. *)
Definition read_exponent (s : string) : Z :=
  match s with
  | String c r =>
      if (Ascii.eqb c "e" || Ascii.eqb c "E")%bool then
        let '(neg, r1) := read_sign r in
        let '(ds, _) := span_digits r1 in
        match ds with
        | EmptyString => 0
        | _ => let v := digits_value 0 ds in if neg then - v else v
        end
      else 0
  | EmptyString => 0
  end.

(** [m * 10^k] as a rational. *)
Definition scale10 (m k : Z) : Q :=
  if 0 <=? k then inject_Z (m * 10 ^ k)
  else Qmake m (Z.to_pos (10 ^ (- k))).

(** [parseFloat(s)]: leading white space, then the longest prefix that is a
    [StrDecimalLiteral]: sign, digits, fraction, exponent.  [NaN] when no
    digit is found.  (The literal [Infinity] is outside the model.) *)
Definition parseFloat (s : string) : number :=
  let '(neg, s1) := read_sign (skip_ws s) in
  let '(ip, r1) := span_digits s1 in
  let '(fp, r2) :=
    match r1 with
    | String "." r => span_digits r
    | _ => (EmptyString, r1)
    end in
  match (ip ++ fp)%string with
  | EmptyString => None
  | ds =>
      let m := digits_value 0 ds in
      let e := read_exponent r2 in
      let q := scale10 m (e - Z.of_nat (String.length fp)) in
      Some (if neg then (- q)%Q else q)
  end.

(** Decimal digits of a non-negative integer, without leading zeros. *)
Fixpoint digits_fuel (fuel : nat) (n : Z) : string :=
  match fuel with
  | O => EmptyString
  | S f =>
      if n <? 10 then String (digit_char n) EmptyString
      else (digits_fuel f (n / 10) ++ String (digit_char (n mod 10)) EmptyString)%string
  end.

Definition digits (n : Z) : string := digits_fuel (S (Z.to_nat (Z.log2 n))) n.

(** The integer [n] with [n / 100] nearest to [x >= 0], the larger one at a
    tie (step 7 of [Number.prototype.toFixed]). *)
Definition round_hundredths (x : Q) : Z := Qfloor (x * 100 + (1 # 2))%Q.

(** [x] rounded to two decimals the way [toFixed(2)] rounds it. *)
Definition round2 (x : Q) : Q :=
  if Qltb x 0 then (- (round_hundredths (- x) # 100))%Q
  else (round_hundredths x # 100)%Q.

Definition fixed2_digits (n : Z) : string :=
  (digits (n / 100) ++ "."
   ++ String (digit_char ((n / 10) mod 10)) (String (digit_char (n mod 10)) EmptyString))%string.

(** [x.toFixed(2)] (for [|x| < 1e21], below which there is no exponent
    notation). *)
Definition toFixed2 (x : number) : string :=
  match x with
  | None => "NaN"
  | Some q =>
      if Qltb q 0 then ("-" ++ fixed2_digits (round_hundredths (- q)))%string
      else fixed2_digits (round_hundredths q)
  end.

(** [s.toLowerCase()] on the ASCII letters. *)
Definition lower_char (c : ascii) : ascii :=
  let n := nat_of_ascii c in
  if ((65 <=? n) && (n <=? 90))%nat then ascii_of_nat (n + 32) else c.

Fixpoint toLowerCase (s : string) : string :=
  match s with
  | String c r => String (lower_char c) (toLowerCase r)
  | EmptyString => EmptyString
  end.

(** [s.includes(t)]. *)
Fixpoint includes (s t : string) : bool :=
  if String.prefix t s then true
  else match s with
       | String _ r => includes r t
       | EmptyString => false
       end.

End JS.

Import JS.

(* ================================================================== *)
(** * The sale entry form: [src/components/product-entry-form.tsx] *)
(* ================================================================== *)

(** [interface ServiceDetail]. *)
Record ServiceDetail : Type := mkServiceDetail {
  id : string;
  name : string;
  description : string;
  price : number;
  createdAt : string
}.

Inductive PaymentMethod : Type := cash | online.

(** [interface SellData]: the record passed to the store. *)
Module Sale.
Record SellData : Type := mkSellData {
  productId : string;
  name : string;
  description : string;
  unitPrice : number;
  quantity : Z;
  totalPriceCalculated : number;
  finalPriceCharged : number;
  discount : number;
  phoneNumber : option string;
  soldAt : string;
  paymentMethod : PaymentMethod
}.
End Sale.

Module ProductEntryForm.

Inductive MessageType : Type := success | error.

Record Message : Type := mkMessage { type : MessageType; text : string }.

(** The [useState] cells of the component. *)
Record FormState : Type := mkForm {
  searchTerm : string;
  products : list ServiceDetail;
  filteredProducts : list ServiceDetail;
  selectedProduct : option ServiceDetail;
  unitPrice : string;
  quantity : Z;
  totalPriceCalculated : number;
  discountInput : string;
  finalPriceCharged : string;
  phoneNumber : string;
  paymentMethod : PaymentMethod;
  message : option Message;
  showSuggestions : bool;
  isLoading : bool
}.

(** The state the first render starts from. *)
Definition initial : FormState :=
  mkForm "" [] [] None "" 1 (num 0) "" "" "" cash None false false.

(** The state setters. *)
Definition setSearchTerm v (s : FormState) :=
  mkForm v (products s) (filteredProducts s) (selectedProduct s) (unitPrice s) (quantity s)
    (totalPriceCalculated s) (discountInput s) (finalPriceCharged s) (phoneNumber s)
    (paymentMethod s) (message s) (showSuggestions s) (isLoading s).
Definition setProducts v (s : FormState) :=
  mkForm (searchTerm s) v (filteredProducts s) (selectedProduct s) (unitPrice s) (quantity s)
    (totalPriceCalculated s) (discountInput s) (finalPriceCharged s) (phoneNumber s)
    (paymentMethod s) (message s) (showSuggestions s) (isLoading s).
Definition setFilteredProducts v (s : FormState) :=
  mkForm (searchTerm s) (products s) v (selectedProduct s) (unitPrice s) (quantity s)
    (totalPriceCalculated s) (discountInput s) (finalPriceCharged s) (phoneNumber s)
    (paymentMethod s) (message s) (showSuggestions s) (isLoading s).
Definition setSelectedProduct v (s : FormState) :=
  mkForm (searchTerm s) (products s) (filteredProducts s) v (unitPrice s) (quantity s)
    (totalPriceCalculated s) (discountInput s) (finalPriceCharged s) (phoneNumber s)
    (paymentMethod s) (message s) (showSuggestions s) (isLoading s).
Definition setUnitPrice v (s : FormState) :=
  mkForm (searchTerm s) (products s) (filteredProducts s) (selectedProduct s) v (quantity s)
    (totalPriceCalculated s) (discountInput s) (finalPriceCharged s) (phoneNumber s)
    (paymentMethod s) (message s) (showSuggestions s) (isLoading s).
Definition setQuantity v (s : FormState) :=
  mkForm (searchTerm s) (products s) (filteredProducts s) (selectedProduct s) (unitPrice s) v
    (totalPriceCalculated s) (discountInput s) (finalPriceCharged s) (phoneNumber s)
    (paymentMethod s) (message s) (showSuggestions s) (isLoading s).
Definition setTotalPriceCalculated v (s : FormState) :=
  mkForm (searchTerm s) (products s) (filteredProducts s) (selectedProduct s) (unitPrice s) (quantity s)
    v (discountInput s) (finalPriceCharged s) (phoneNumber s)
    (paymentMethod s) (message s) (showSuggestions s) (isLoading s).
Definition setDiscountInput v (s : FormState) :=
  mkForm (searchTerm s) (products s) (filteredProducts s) (selectedProduct s) (unitPrice s) (quantity s)
    (totalPriceCalculated s) v (finalPriceCharged s) (phoneNumber s)
    (paymentMethod s) (message s) (showSuggestions s) (isLoading s).
Definition setFinalPriceCharged v (s : FormState) :=
  mkForm (searchTerm s) (products s) (filteredProducts s) (selectedProduct s) (unitPrice s) (quantity s)
    (totalPriceCalculated s) (discountInput s) v (phoneNumber s)
    (paymentMethod s) (message s) (showSuggestions s) (isLoading s).
Definition setPhoneNumber v (s : FormState) :=
  mkForm (searchTerm s) (products s) (filteredProducts s) (selectedProduct s) (unitPrice s) (quantity s)
    (totalPriceCalculated s) (discountInput s) (finalPriceCharged s) v
    (paymentMethod s) (message s) (showSuggestions s) (isLoading s).
Definition setPaymentMethod v (s : FormState) :=
  mkForm (searchTerm s) (products s) (filteredProducts s) (selectedProduct s) (unitPrice s) (quantity s)
    (totalPriceCalculated s) (discountInput s) (finalPriceCharged s) (phoneNumber s)
    v (message s) (showSuggestions s) (isLoading s).
Definition setMessage v (s : FormState) :=
  mkForm (searchTerm s) (products s) (filteredProducts s) (selectedProduct s) (unitPrice s) (quantity s)
    (totalPriceCalculated s) (discountInput s) (finalPriceCharged s) (phoneNumber s)
    (paymentMethod s) v (showSuggestions s) (isLoading s).
Definition setShowSuggestions v (s : FormState) :=
  mkForm (searchTerm s) (products s) (filteredProducts s) (selectedProduct s) (unitPrice s) (quantity s)
    (totalPriceCalculated s) (discountInput s) (finalPriceCharged s) (phoneNumber s)
    (paymentMethod s) (message s) v (isLoading s).
Definition setIsLoading v (s : FormState) :=
  mkForm (searchTerm s) (products s) (filteredProducts s) (selectedProduct s) (unitPrice s) (quantity s)
    (totalPriceCalculated s) (discountInput s) (finalPriceCharged s) (phoneNumber s)
    (paymentMethod s) (message s) (showSuggestions s) v.

(** [formatCurrency]. *)
Definition formatCurrency (value : number) : string := toFixed2 value.

(** The effect on [selectedProduct, unitPrice, quantity, discountInput]
    (lines 97-120): one run of its body. *)
Definition price_effect (st : FormState) : FormState :=
  match selectedProduct st with
  | Some _ =>
      if nonempty (unitPrice st) then
        let priceVal := parseFloat (unitPrice st) in
        let calculatedTotal := mul priceVal (num (inject_Z (quantity st))) in
        let st1 := setTotalPriceCalculated calculatedTotal st in
        let discountVal := or_zero (parseFloat (discountInput st)) in
        let finalPrice := sub calculatedTotal (num discountVal) in
        if lt finalPrice (num 0) then
          setFinalPriceCharged (formatCurrency (num 0))
            (setDiscountInput (formatCurrency calculatedTotal) st1)
        else setFinalPriceCharged (formatCurrency finalPrice) st1
      else
        setFinalPriceCharged "" (setDiscountInput "" (setTotalPriceCalculated (num 0) st))
  | None =>
      setFinalPriceCharged "" (setDiscountInput "" (setTotalPriceCalculated (num 0) st))
  end.

(** The catalogue is fetched once, so two product objects are the same
    object exactly when they have the same key. *)
Definition same_product (a b : option ServiceDetail) : bool :=
  match a, b with
  | Some x, Some y => String.eqb (id x) (id y)
  | None, None => true
  | _, _ => false
  end.

(** Whether the dependency array of the effect is unchanged. *)
Definition deps_eqb (a b : FormState) : bool :=
  same_product (selectedProduct a) (selectedProduct b)
  && String.eqb (unitPrice a) (unitPrice b)
  && (quantity a =? quantity b)
  && String.eqb (discountInput a) (discountInput b).

(** The effect runs, and runs again while it changes one of its own
    dependencies. *)
Fixpoint run_effects (fuel : nat) (st : FormState) : FormState :=
  match fuel with
  | O => st
  | S k =>
      let st' := price_effect st in
      if deps_eqb st st' then st' else run_effects k st'
  end.

(** The render after an event: the effect runs when a dependency changed
    ([run_effects_stable] below: two rounds always reach the fixed point). *)
Definition rerender (prev next : FormState) : FormState :=
  if deps_eqb prev next then next else run_effects 2 next.

Definition handleSearchChange (value : string) (st : FormState) : FormState :=
  let st1 := setSearchTerm value st in
  if String.eqb (trim value) "" then
    setShowSuggestions false (setFilteredProducts [] st1)
  else
    let filtered :=
      filter (fun product => includes (toLowerCase (name product)) (toLowerCase value))
             (products st) in
    setShowSuggestions true (setFilteredProducts filtered st1).

Definition handleSelectProduct (product : ServiceDetail) (st : FormState) : FormState :=
  setMessage None
    (setShowSuggestions false
      (setSearchTerm (name product)
        (setDiscountInput ""
          (setQuantity 1
            (setUnitPrice (toFixed2 (price product))
              (setSelectedProduct (Some product) st)))))).

Definition handleQuantityChange (value : string) (st : FormState) : FormState :=
  let value := parseInt value in
  let newQuantity := Z.max 1 (match value with None => 1 | Some v => v end) in
  setDiscountInput "" (setQuantity newQuantity st).

Definition handleDiscountChange (value : string) (st : FormState) : FormState :=
  let discountVal := parseFloat value in
  let st1 := setDiscountInput value st in
  let calculatedTotal := totalPriceCalculated st in
  if gt calculatedTotal (num 0) && negb (isNaN discountVal) && ge discountVal (num 0) then
    let newFinalPrice := sub calculatedTotal discountVal in
    let newFinalPrice := if lt newFinalPrice (num 0) then num 0 else newFinalPrice in
    setFinalPriceCharged (formatCurrency newFinalPrice) st1
  else if String.eqb (trim value) "" || isNaN discountVal || lt discountVal (num 0) then
    setFinalPriceCharged (formatCurrency calculatedTotal) st1
  else st1.

(** What the environment answers during one [handleSell]: the time stamp,
    whether the store accepts the write, whether the invoice is sent. *)
Record SellEnv : Type := mkSellEnv {
  timestamp : string;
  write_ok : bool;
  invoice_ok : bool
}.

(** What one call of [handleSell] did: the state it leaves, the records it
    passed to [set], the invoices it posted. *)
Record SellRun : Type := mkSellRun {
  after : FormState;
  writes : list Sale.SellData;
  invoices : list (string * Sale.SellData)
}.

Definition no_product_msg : Message :=
  mkMessage error "No product selected to sell.".
Definition price_error_msg : Message :=
  mkMessage error "Final price calculation error. Please review the inputs.".
Definition sold_msg : Message :=
  mkMessage success "Product sold successfully. Invoice sent via WhatsApp (if number provided).".
Definition sell_failed_msg : Message :=
  mkMessage error "Failed to sell product.".
Definition invoice_failed_msg : Message :=
  mkMessage error "Failed to send WhatsApp invoice message.".

(** The record [handleSell] builds (lines 196-217). *)
Definition makeSellData (env : SellEnv) (product : ServiceDetail) (finalPriceVal : number)
    (st : FormState) : Sale.SellData :=
  let unitPriceVal := parseFloat (unitPrice st) in
  let calculatedTotal := mul unitPriceVal (num (inject_Z (quantity st))) in
  let finalDiscount := sub calculatedTotal finalPriceVal in
  Sale.mkSellData
    (id product) (name product) (description product)
    unitPriceVal (quantity st) calculatedTotal finalPriceVal
    (if gt finalDiscount (num 0) then finalDiscount else num 0)
    (if nonempty (trim (phoneNumber st)) then Some (trim (phoneNumber st)) else None)
    (timestamp env)
    (paymentMethod st).

(** [handleSell], run to completion: both [await]s have resolved, and the
    state shown is the one after the last [setState].  The invoice sender
    catches its own failures, so it never makes [handleSell] fail. *)
Definition handleSell (env : SellEnv) (st : FormState) : SellRun :=
  match selectedProduct st with
  | None => mkSellRun (setMessage (Some no_product_msg) st) [] []
  | Some product =>
      let finalPriceVal := parseFloat (finalPriceCharged st) in
      if isNaN finalPriceVal || lt finalPriceVal (num 0) then
        mkSellRun (setMessage (Some price_error_msg) st) [] []
      else
        let data := makeSellData env product finalPriceVal st in
        let st1 := setIsLoading true st in
        if write_ok env then
          let sent :=
            match Sale.phoneNumber data with
            | Some number => [(number, data)]
            | None => []
            end in
          let st2 :=
            match Sale.phoneNumber data with
            | Some _ => if invoice_ok env then st1 else setMessage (Some invoice_failed_msg) st1
            | None => st1
            end in
          let st3 :=
            setPaymentMethod cash
              (setPhoneNumber ""
                (setSearchTerm ""
                  (setFinalPriceCharged ""
                    (setDiscountInput ""
                      (setTotalPriceCalculated (num 0)
                        (setQuantity 1
                          (setUnitPrice ""
                            (setSelectedProduct None
                              (setMessage (Some sold_msg) st2))))))))) in
          mkSellRun (setIsLoading false st3) [data] sent
        else
          mkSellRun (setIsLoading false (setMessage (Some sell_failed_msg) st1)) [data] []
  end.

(** The events of the form. *)
Inductive Event : Type :=
| CatalogLoaded (list : list ServiceDetail)
| SearchChange (value : string)
| SearchFocus
| SelectProduct (product : ServiceDetail)
| QuantityChange (value : string)
| DiscountChange (value : string)
| PhoneChange (value : string)
| PaymentChange (method : PaymentMethod)
| Sell (env : SellEnv).

Definition handle (ev : Event) (st : FormState) : FormState :=
  match ev with
  | CatalogLoaded l => setProducts l st
  | SearchChange v => handleSearchChange v st
  | SearchFocus => setShowSuggestions (0 <? Z.of_nat (List.length (filteredProducts st))) st
  | SelectProduct p => handleSelectProduct p st
  | QuantityChange v => handleQuantityChange v st
  | DiscountChange v => handleDiscountChange v st
  | PhoneChange v => setPhoneNumber v st
  | PaymentChange m => setPaymentMethod m st
  | Sell env => after (handleSell env st)
  end.

(** One event: its handler, then the render that follows. *)
Definition dispatch (ev : Event) (st : FormState) : FormState :=
  rerender st (handle ev st).

(** When the page lets an event happen: a suggestion can be clicked while
    it is listed, the entry fields exist while a product is selected, an
    [onChange] carries a value other than the one displayed, and the sell
    button is enabled as its [disabled] attribute says. *)
Definition enabled (ev : Event) (st : FormState) : Prop :=
  match ev with
  | CatalogLoaded _ | SearchChange _ | SearchFocus => True
  | SelectProduct p => showSuggestions st = true /\ In p (filteredProducts st)
  | QuantityChange _ | PhoneChange _ | PaymentChange _ => selectedProduct st <> None
  | DiscountChange v => selectedProduct st <> None /\ v <> discountInput st
  | Sell _ =>
      selectedProduct st <> None /\ isLoading st = false
      /\ nonempty (finalPriceCharged st) = true
      /\ lt (parseFloat (finalPriceCharged st)) (num 0) = false
  end.

(** The states the form can be in between two events. *)
Inductive reachable : FormState -> Prop :=
| reachable_initial : reachable initial
| reachable_dispatch st ev :
    reachable st -> enabled ev st -> reachable (dispatch ev st).

End ProductEntryForm.

(* ================================================================== *)
(** * Dates *)
(* ================================================================== *)

Module JSDate.

(** Milliseconds of local civil time since 1970-01-01T00:00:00.000. *)
Definition Date : Type := Z.

Definition ms_per_day : Z := 86400000.

(** Days since 1970-01-01 of the civil date [y]-[m]-[d], [m] in 1..12. *)
Definition days_from_civil (y m d : Z) : Z :=
  let y := if m <=? 2 then y - 1 else y in
  let era := y / 400 in
  let yoe := y - era * 400 in
  let doy := (153 * (if 2 <? m then m - 3 else m + 9) + 2) / 5 + d - 1 in
  let doe := yoe * 365 + yoe / 4 - yoe / 100 + doy in
  era * 146097 + doe - 719468.

(** The civil date [(year, month in 1..12, day)] of a day number. *)
Definition civil_from_days (z : Z) : Z * Z * Z :=
  let z := z + 719468 in
  let era := z / 146097 in
  let doe := z - era * 146097 in
  let yoe := (doe - doe / 1460 + doe / 36524 - doe / 146096) / 365 in
  let y := yoe + era * 400 in
  let doy := doe - (365 * yoe + yoe / 4 - yoe / 100) in
  let mp := (5 * doy + 2) / 153 in
  let d := doy - (153 * mp + 2) / 5 + 1 in
  let m := if mp <? 10 then mp + 3 else mp - 9 in
  (if m <=? 2 then y + 1 else y, m, d).

Definition day_number (t : Date) : Z := t / ms_per_day.

Definition getFullYear (t : Date) : Z :=
  let '(y, _, _) := civil_from_days (day_number t) in y.

(** Zero-based, as in JavaScript. *)
Definition getMonth (t : Date) : Z :=
  let '(_, m, _) := civil_from_days (day_number t) in m - 1.

Definition getDate (t : Date) : Z :=
  let '(_, _, d) := civil_from_days (day_number t) in d.

(** 0 is Sunday; 1970-01-01 was a Thursday. *)
Definition getDay (t : Date) : Z := (day_number t + 4) mod 7.

(** [setHours(0, 0, 0, 0)] / date-fns [startOfDay]. *)
Definition startOfDay (t : Date) : Date := day_number t * ms_per_day.

(** [setHours(23, 59, 59, 999)]. *)
Definition endOfDay (t : Date) : Date := startOfDay t + ms_per_day - 1.

(** [t.setDate(t.getDate() + k)]. *)
Definition addDays (t : Date) (k : Z) : Date := t + k * ms_per_day.

Definition is_leap (y : Z) : bool :=
  ((y mod 4 =? 0) && negb (y mod 100 =? 0)) || (y mod 400 =? 0).

Definition days_in_month (y m : Z) : Z :=
  if m =? 2 then (if is_leap y then 29 else 28)
  else if (m =? 4) || (m =? 6) || (m =? 9) || (m =? 11) then 30 else 31.

(** [new Date(year, 0, 1)]; a year in 0..99 means 1900 + year, and [NaN]
    gives an invalid date ([None]). *)
Definition newDate_jan1 (year : option Z) : option Date :=
  match year with
  | None => None
  | Some y =>
      let y := if (0 <=? y) && (y <=? 99) then 1900 + y else y in
      Some (days_from_civil y 1 1 * ms_per_day)
  end.

(** date-fns [parseISO] on the calendar form [YYYY-MM-DD], which is what
    the date and month inputs deliver; an invalid date is [None].  (The
    other ISO-8601 forms are outside the model.) *)
Definition parseISO (s : string) : option Date :=
  let '(ys, r) := span_digits s in
  match r with
  | String "-" r1 =>
      let '(ms, r2) := span_digits r1 in
      match r2 with
      | String "-" r3 =>
          let '(ds, r4) := span_digits r3 in
          let y := digits_value 0 ys in
          let m := digits_value 0 ms in
          let d := digits_value 0 ds in
          if (String.length ys =? 4)%nat && (String.length ms =? 2)%nat
             && (String.length ds =? 2)%nat && String.eqb r4 ""
             && (1 <=? m) && (m <=? 12) && (1 <=? d) && (d <=? days_in_month y m)
          then Some (days_from_civil y m d * ms_per_day)
          else None
      | _ => None
      end
  | _ => None
  end.

(** date-fns comparisons; an invalid date equals nothing. *)
Definition isSameDay (a : Date) (b : option Date) : bool :=
  match b with Some b => startOfDay a =? startOfDay b | None => false end.

Definition isSameMonth (a : Date) (b : option Date) : bool :=
  match b with
  | Some b => (getFullYear a =? getFullYear b) && (getMonth a =? getMonth b)
  | None => false
  end.

Definition isSameYear (a : Date) (b : option Date) : bool :=
  match b with Some b => getFullYear a =? getFullYear b | None => false end.

Definition isToday (now a : Date) : bool := isSameDay a (Some now).

End JSDate.

Import JSDate.

(* ================================================================== *)
(** * The stored sale records and JavaScript objects used as maps *)
(* ================================================================== *)

(** A row of the [sell] collection as the dashboards receive it: the
    fields their filters and aggregates read, the numeric ones after the
    [Number(value || 0)] of the subscription.  [soldAt] is the instant its
    ISO string denotes. *)
Record SellRecord : Type := mkSellRecord {
  sr_id : string;
  sr_productId : string;
  sr_name : string;
  sr_quantity : Z;
  sr_finalPriceCharged : Q;
  sr_discount : Q;
  sr_soldAt : Date;
  sr_paymentMethod : string
}.

(** A JavaScript object used as a map from strings: its own keys in
    insertion order.  (Keys that name a member of [Object.prototype], and
    the numeric ordering of integer-like keys, are outside the model.) *)
Module Obj.
Section Obj.
Context {V : Type}.

Definition t : Type := list (string * V).

Fixpoint get (k : string) (m : t) : option V :=
  match m with
  | [] => None
  | (k', v) :: r => if String.eqb k k' then Some v else get k r
  end.

(** [m[k] = v]: an existing key keeps its place, a new one goes last. *)
Fixpoint set (k : string) (v : V) (m : t) : t :=
  match m with
  | [] => [(k, v)]
  | (k', v') :: r => if String.eqb k k' then (k, v) :: r else (k', v') :: set k v r
  end.

Definition values (m : t) : list V := map snd m.

End Obj.
Arguments t : clear implicits.
End Obj.

(** [xs.reduce((acc, x) => acc + f(x), 0)]. *)
Definition sumQ {A : Type} (f : A -> Q) (xs : list A) : Q :=
  fold_left (fun acc x => (acc + f x)%Q) xs 0%Q.

Definition sumZ {A : Type} (f : A -> Z) (xs : list A) : Z :=
  fold_left (fun acc x => acc + f x) xs 0.

(** [{ name, quantity }]. *)
Record ProductQuantity : Type := mkProductQuantity {
  pq_name : string;
  pq_quantity : Z
}.

(** The filter of the two sales pages. *)
Inductive Filter : Type := today | month | year | day | all.

Definition Filter_eqb (a b : Filter) : bool :=
  match a, b with
  | today, today | month, month | year, year | day, day | all, all => true
  | _, _ => false
  end.

(** The state both versions of the sales page keep. *)
Record PageState : Type := mkPage {
  sellData : list SellRecord;
  filter : Filter;
  selectedDateInput : string;
  selectedMonthInput : string;
  selectedYearInput : string
}.

Definition page_initial : PageState := mkPage [] today "" "" "".

(** The handlers, the same in both versions. *)
Module PageHandlers.

Definition handleFilterChange (newFilter : Filter) (st : PageState) : PageState :=
  mkPage (sellData st) newFilter "" "" "".


Definition onMonthInput (value : string) (st : PageState) : PageState :=
  mkPage (sellData st) month "" value "".

Definition onYearInput (value : string) (st : PageState) : PageState :=
  mkPage (sellData st) year "" "" value.





End PageHandlers.

(* ================================================================== *)
(** * The sales page: [src/components/ServiceSalesPage.tsx] *)
(* ================================================================== *)

Module ServiceSalesPage.

(** The filter effect (lines 48-70); [now] is the clock [isToday] reads. *)
Definition filteredSales (now : Date) (st : PageState) : list SellRecord :=
  if Filter_eqb (filter st) today then
    List.filter (fun sale => isToday now (sr_soldAt sale)) (sellData st)
  else if Filter_eqb (filter st) month && nonempty (selectedMonthInput st) then
    let monthDate := parseISO (selectedMonthInput st ++ "-01") in
    List.filter (fun sale => isSameMonth (sr_soldAt sale) monthDate) (sellData st)
  else if Filter_eqb (filter st) year && nonempty (selectedYearInput st) then
    let yearDate := newDate_jan1 (parseInt (selectedYearInput st)) in
    List.filter (fun sale => isSameYear (sr_soldAt sale) yearDate) (sellData st)
  else if Filter_eqb (filter st) day && nonempty (selectedDateInput st) then
    let dayDate := parseISO (selectedDateInput st) in
    List.filter (fun sale => isSameDay (sr_soldAt sale) dayDate) (sellData st)
  else if Filter_eqb (filter st) all then
    sellData st
  else
    List.filter (fun sale => isToday now (sr_soldAt sale)) (sellData st).

(** One round of the [forEach] of lines 73-79. *)
Definition count_sale (productCount : Obj.t ProductQuantity) (sale : SellRecord)
    : Obj.t ProductQuantity :=
  match Obj.get (sr_productId sale) productCount with
  | Some entry =>
      Obj.set (sr_productId sale)
        (mkProductQuantity (pq_name entry) (pq_quantity entry + 1)) productCount
  | None =>
      Obj.set (sr_productId sale) (mkProductQuantity (sr_name sale) 1) productCount
  end.

(** [productQuantities] (lines 72-81). *)
Definition productQuantities (sales : list SellRecord) : list ProductQuantity :=
  Obj.values (fold_left count_sale sales []).

End ServiceSalesPage.

(* ================================================================== *)
(** * The sales page, second version: [src/unnamed/part_001] *)
(* ================================================================== *)

Module SalesPage.

(** [filteredSales] (lines 69-103). *)
Definition filteredSales (now : Date) (st : PageState) : list SellRecord :=
  let '(sales, defaultToToday) :=
    if Filter_eqb (filter st) today then
      (List.filter (fun sale => isToday now (sr_soldAt sale)) (sellData st), false)
    else if Filter_eqb (filter st) month && nonempty (selectedMonthInput st) then
      let monthDate := parseISO (selectedMonthInput st ++ "-01") in
      (List.filter (fun sale => isSameMonth (sr_soldAt sale) monthDate) (sellData st), false)
    else if Filter_eqb (filter st) year && nonempty (selectedYearInput st) then
      let yearDate := newDate_jan1 (parseInt (selectedYearInput st)) in
      (List.filter (fun sale => isSameYear (sr_soldAt sale) yearDate) (sellData st), false)
    else if Filter_eqb (filter st) day && nonempty (selectedDateInput st) then
      let dayDate := parseISO (selectedDateInput st) in
      (List.filter (fun sale => isSameDay (sr_soldAt sale) dayDate) (sellData st), false)
    else if Filter_eqb (filter st) all then
      (sellData st, false)
    else
      (List.filter (fun sale => isToday now (sr_soldAt sale)) (sellData st), true) in
  if negb defaultToToday
     && ((Filter_eqb (filter st) day && negb (nonempty (selectedDateInput st)))
         || (Filter_eqb (filter st) month && negb (nonempty (selectedMonthInput st)))
         || (Filter_eqb (filter st) year && negb (nonempty (selectedYearInput st))))
  then []
  else sales.

(** One round of the [forEach] of lines 108-117. *)
Definition count_sale (productCount : Obj.t ProductQuantity) (sale : SellRecord)
    : Obj.t ProductQuantity :=
  let qty := if sr_quantity sale =? 0 then 1 else sr_quantity sale in
  match Obj.get (sr_productId sale) productCount with
  | Some entry =>
      Obj.set (sr_productId sale)
        (mkProductQuantity (pq_name entry) (pq_quantity entry + qty)) productCount
  | None =>
      Obj.set (sr_productId sale) (mkProductQuantity (sr_name sale) qty) productCount
  end.

Definition productCount (sales : list SellRecord) : Obj.t ProductQuantity :=
  fold_left count_sale sales [].

(** [Array.prototype.sort] is stable: insertion from the right. *)
Fixpoint insert_desc (x : ProductQuantity) (l : list ProductQuantity) : list ProductQuantity :=
  match l with
  | [] => [x]
  | y :: r => if pq_quantity x <? pq_quantity y then y :: insert_desc x r else x :: l
  end.

Definition sort_desc (l : list ProductQuantity) : list ProductQuantity :=
  fold_right insert_desc [] l.

(** [productQuantities] (lines 105-121). *)
Definition productQuantities (sales : list SellRecord) : list ProductQuantity :=
  sort_desc (Obj.values (productCount sales)).

Definition totalSales (sales : list SellRecord) : Q := sumQ sr_finalPriceCharged sales.
Definition totalDiscount (sales : list SellRecord) : Q := sumQ sr_discount sales.

End SalesPage.

(* ================================================================== *)
(** * The dashboard: [src/unnamed/part_002] *)
(* ================================================================== *)

Module Dashboard.

(** [MONTHS]: the long month names (of the English locale). *)
Definition MONTHS : list string :=
  ["January"; "February"; "March"; "April"; "May"; "June"; "July"; "August";
   "September"; "October"; "November"; "December"].

(** [xs.indexOf(x)], [-1] when absent. *)
Fixpoint indexOf_from (i : Z) (x : string) (xs : list string) : Z :=
  match xs with
  | [] => -1
  | y :: r => if String.eqb x y then i else indexOf_from (i + 1) x r
  end.

Definition indexOf (x : string) (xs : list string) : Z := indexOf_from 0 x xs.

(** The filtering states. *)
Record FilterState : Type := mkFilters {
  filteredMonth : string;
  filteredYear : string;
  filteredDay : string;
  filteredWeek : string;
  startDate : option Date;
  endDate : option Date
}.

Definition no_filters : FilterState := mkFilters "All" "All" "All" "All" None None.

Definition is_All (s : string) : bool := String.eqb s "All".

(** [soldDate.getX() === parseInt(s)]; nothing equals [NaN]. *)
Definition equals_parsed (x : Z) (s : string) : bool :=
  match parseInt s with Some v => x =? v | None => false end.

Definition getStartOfWeek (d : Date) : Date :=
  startOfDay (addDays d (- getDay d)).

(** The predicate of [filteredSells] (lines 173-234). *)
Definition sell_matches (now : Date) (fs : FilterState) (sell : SellRecord) : bool :=
  let soldDate := sr_soldAt sell in
  let range_ok :=
    match startDate fs, endDate fs with
    | Some s, Some e => (startOfDay s <=? soldDate) && (soldDate <=? endOfDay e)
    | _, _ => true
    end in
  if negb range_ok then false else
  let year_ok :=
    if negb (is_All (filteredYear fs))
    then equals_parsed (getFullYear soldDate) (filteredYear fs) else true in
  if negb year_ok then false else
  let month_ok :=
    if negb (is_All (filteredMonth fs))
    then getMonth soldDate =? indexOf (filteredMonth fs) MONTHS else true in
  if negb month_ok then false else
  let day_ok :=
    if negb (is_All (filteredDay fs))
    then equals_parsed (getDate soldDate) (filteredDay fs) else true in
  if negb day_ok then false else
  if negb (is_All (filteredWeek fs)) then
    let startOfWeek := getStartOfWeek now in
    if String.eqb (filteredWeek fs) "This Week" then
      startOfWeek <=? soldDate
    else if String.eqb (filteredWeek fs) "Last Week" then
      let startOfLastWeek := addDays startOfWeek (-7) in
      let endOfLastWeek := endOfDay (addDays startOfLastWeek 6) in
      (startOfLastWeek <=? soldDate) && (soldDate <=? endOfLastWeek)
    else true
  else true.

Definition filteredSells (now : Date) (fs : FilterState) (sells : list SellRecord)
    : list SellRecord :=
  List.filter (sell_matches now fs) sells.

Definition isFilterActive (fs : FilterState) : bool :=
  negb (is_All (filteredMonth fs)) || negb (is_All (filteredYear fs))
  || negb (is_All (filteredDay fs)) || negb (is_All (filteredWeek fs))
  || (match startDate fs with Some _ => true | None => false end)
  || (match endDate fs with Some _ => true | None => false end).

Definition currentViewSells (now : Date) (fs : FilterState) (sells : list SellRecord)
    : list SellRecord :=
  if isFilterActive fs then filteredSells now fs sells
  else
    List.filter
      (fun sell =>
         (getDate (sr_soldAt sell) =? getDate now)
         && (getMonth (sr_soldAt sell) =? getMonth now)
         && (getFullYear (sr_soldAt sell) =? getFullYear now))
      sells.


Definition is_cash (sell : SellRecord) : bool := String.eqb (sr_paymentMethod sell) "cash".
Definition is_online (sell : SellRecord) : bool := String.eqb (sr_paymentMethod sell) "online".


(** [interface ChartData]. *)
Record ChartData : Type := mkChartData {
  cd_month : string;
  Cash : Q;
  Online : Q
}.

(** [xs.map((x, index) => f(x, index))]. *)
Fixpoint mapi_from {A B : Type} (i : Z) (f : A -> Z -> B) (xs : list A) : list B :=
  match xs with
  | [] => []
  | x :: r => f x i :: mapi_from (i + 1) f r
  end.

(** [chartData] (lines 283-294), from the list [filteredSells] holds. *)
Definition chartData (filteredSells : list SellRecord) : list ChartData :=
  mapi_from 0
    (fun monthName index =>
       let monthlyData :=
         List.filter (fun sell => getMonth (sr_soldAt sell) =? index) filteredSells in
       let monthlyCashTotal := sumQ sr_finalPriceCharged (List.filter is_cash monthlyData) in
       let monthlyOnlineTotal := sumQ sr_finalPriceCharged (List.filter is_online monthlyData) in
       mkChartData (String.substring 0 3 monthName) monthlyCashTotal monthlyOnlineTotal)
    MONTHS.

(** [interface ProductReportItem]. *)
Record ProductReportItem : Type := mkReportItem {
  ri_name : string;
  totalQuantity : Z;
  totalAmount : Q;
  totalDiscount : Q
}.

(** [acc[name]?.field || 0]. *)
Definition prior_quantity (e : option ProductReportItem) : Z :=
  match e with
  | Some item => if totalQuantity item =? 0 then 0 else totalQuantity item
  | None => 0
  end.

Definition prior_amount (e : option ProductReportItem) : Q :=
  match e with Some item => or_zero (num (totalAmount item)) | None => 0%Q end.

Definition prior_discount (e : option ProductReportItem) : Q :=
  match e with Some item => or_zero (num (totalDiscount item)) | None => 0%Q end.

(** One round of the [reduce] of lines 298-306. *)
Definition add_sell (acc : Obj.t ProductReportItem) (sell : SellRecord)
    : Obj.t ProductReportItem :=
  let e := Obj.get (sr_name sell) acc in
  Obj.set (sr_name sell)
    (mkReportItem (sr_name sell)
       (prior_quantity e + sr_quantity sell)
       (prior_amount e + sr_finalPriceCharged sell)%Q
       (prior_discount e + sr_discount sell)%Q)
    acc.

(** [aggregatedProductSales] (lines 297-309). *)
Definition aggregatedProductSales (filteredSells : list SellRecord) : list ProductReportItem :=
  Obj.values (fold_left add_sell filteredSells []).

(** The [onChange] handlers of the filter controls (lines 363-451). *)
Definition onMonthChange (value : string) (fs : FilterState) : FilterState :=
  mkFilters value (filteredYear fs) "All" "All" None None.

Definition onYearChange (value : string) (fs : FilterState) : FilterState :=
  mkFilters (filteredMonth fs) value "All" "All" None None.

Definition onDayChange (value : string) (fs : FilterState) : FilterState :=
  mkFilters (filteredMonth fs) (filteredYear fs) value "All" None None.

Definition onWeekChange (value : string) (fs : FilterState) : FilterState :=
  mkFilters "All" "All" "All" value None None.

Definition onStartDateChange (date : option Date) (fs : FilterState) : FilterState :=
  let keep_end :=
    match endDate fs, date with
    | Some e, Some d => if e <? d then None else endDate fs
    | _, _ => endDate fs
    end in
  mkFilters "All" "All" "All" "All" date keep_end.

Definition onEndDateChange (date : option Date) (fs : FilterState) : FilterState :=
  mkFilters "All" "All" "All" "All" (startDate fs) date.

Definition handleFilterReset (fs : FilterState) : FilterState := no_filters.

(** A selection made with one of the filter controls. *)
Inductive FilterAction : Type :=
| SelectMonth (value : string)
| SelectYear (value : string)
| SelectDay (value : string)
| SelectWeek (value : string)
| PickStartDate (date : option Date)
| PickEndDate (date : option Date)
| ResetFilters.

Definition apply_action (a : FilterAction) (fs : FilterState) : FilterState :=
  match a with
  | SelectMonth v => onMonthChange v fs
  | SelectYear v => onYearChange v fs
  | SelectDay v => onDayChange v fs
  | SelectWeek v => onWeekChange v fs
  | PickStartDate d => onStartDateChange d fs
  | PickEndDate d => onEndDateChange d fs
  | ResetFilters => handleFilterReset fs
  end.

End Dashboard.

(* ================================================================== *)
(** * The report table and the filter controls: [src/unnamed/part_002] *)
(* ================================================================== *)

From Stdlib Require Import Sorted Permutation.

(** The component [ReportTable] (lines 598-681). *)
Module ReportTable.

Import Dashboard.

(** The columns whose header calls [requestSort]. *)
Inductive SortKey : Type := byQuantity | byAmount | byDiscount.

Inductive Direction : Type := ascending | descending.

Record SortConfig : Type := mkSortConfig { key : SortKey; direction : Direction }.

Definition SortKey_eqb (a b : SortKey) : bool :=
  match a, b with
  | byQuantity, byQuantity | byAmount, byAmount | byDiscount, byDiscount => true
  | _, _ => false
  end.

(** [item[key]]. *)
Definition field (k : SortKey) (item : ProductReportItem) : Q :=
  match k with
  | byQuantity => inject_Z (totalQuantity item)
  | byAmount => totalAmount item
  | byDiscount => totalDiscount item
  end.

(** The state [useState] starts from. *)
Definition initialConfig (initialSortKey : SortKey) : SortConfig :=
  mkSortConfig initialSortKey descending.

(** The comparator handed to [sort] (lines 607-618). *)
Definition compare_items (sortConfig : SortConfig) (a b : ProductReportItem) : Z :=
  let aValue := field (key sortConfig) a in
  let bValue := field (key sortConfig) b in
  if Qltb aValue bValue then
    match direction sortConfig with ascending => -1 | descending => 1 end
  else if Qltb bValue aValue then
    match direction sortConfig with ascending => 1 | descending => -1 end
  else 0.

(** [Array.prototype.sort] with a consistent comparator: the sort is
    stable, so its result is the one of insertion from the right. *)
Fixpoint insert_by {A : Type} (cmp : A -> A -> Z) (x : A) (l : list A) : list A :=
  match l with
  | [] => [x]
  | y :: r => if 0 <? cmp x y then y :: insert_by cmp x r else x :: l
  end.

Definition sort_by {A : Type} (cmp : A -> A -> Z) (l : list A) : list A :=
  fold_right (insert_by cmp) [] l.

(** [sortedData] (lines 604-621). *)
Definition sortedData (sortConfig : SortConfig) (data : list ProductReportItem)
    : list ProductReportItem :=
  sort_by (compare_items sortConfig) data.

(** [requestSort] (lines 623-632). *)
Definition requestSort (k : SortKey) (sortConfig : SortConfig) : SortConfig :=
  let direction :=
    if SortKey_eqb (key sortConfig) k
       && match direction sortConfig with descending => true | ascending => false end
    then ascending else descending in
  mkSortConfig k direction.

End ReportTable.

(** The filter controls as the page offers them. *)
Module FilterControls.

Import Dashboard.

(** The day select is disabled while the month or the year is [All]
    (line 385); every other control is always enabled. *)
Definition action_enabled (a : FilterAction) (fs : FilterState) : Prop :=
  match a with
  | SelectDay _ => is_All (filteredMonth fs) = false /\ is_All (filteredYear fs) = false
  | _ => True
  end.

(** The filter states the controls can produce. *)
Inductive filters_reachable : FilterState -> Prop :=
| filters_initial : filters_reachable no_filters
| filters_step fs a :
    filters_reachable fs -> action_enabled a fs -> filters_reachable (apply_action a fs).

End FilterControls.

(** The options of the day select. *)
Module DayOptions.

Import JS JSDate Dashboard.

(** [new Date(year, monthIndex, day)] on integers: a month index outside
    0..11 and a day outside the month carry over, and a year in 0..99
    means 1900 + year. *)
Definition newDate (year monthIndex day : Z) : Date :=
  let y := if (0 <=? year) && (year <=? 99) then 1900 + year else year in
  (days_from_civil (y + monthIndex / 12) (monthIndex mod 12 + 1) 1 + (day - 1))
  * ms_per_day.

(** [Array.from({ length: n }, (_, i) => i + 1)]. *)
Definition one_to (n : Z) : list Z :=
  map (fun i => Z.of_nat i + 1) (seq 0 (Z.to_nat n)).

(** [getDayOptions] (lines 313-321); with a year that parses to [NaN] the
    date is invalid, [getDate()] is [NaN] and the array is empty. *)
Definition getDayOptions (fs : FilterState) : list Z :=
  if is_All (filteredMonth fs) || is_All (filteredYear fs) then []
  else
    let monthIndex := indexOf (filteredMonth fs) MONTHS in
    match parseInt (filteredYear fs) with
    | None => []
    | Some y =>
        let daysInMonth := getDate (newDate y (monthIndex + 1) 0) in
        one_to daysInMonth
    end.

End DayOptions.

(* ================================================================== *)
(** * Vocabulary of the statements *)
(* ================================================================== *)

(** Strings of decimal digits. *)
Fixpoint all_digits (s : string) : bool :=
  match s with
  | String c r => is_digit c && all_digits r
  | EmptyString => true
  end.

Definition leading_digit (s : string) : bool :=
  match s with String c _ => is_digit c | EmptyString => false end.

(** A whole number of hundredths. *)
Definition is_cents (q : Q) : Prop := exists z : Z, (q == z # 100)%Q.

(** ** The sale entry form *)

Import ProductEntryForm.

Definition has_product (st : FormState) : bool :=
  match selectedProduct st with Some _ => true | None => false end.

(** What one run of the effect writes, as a function of what it reads:
    the total, the discount input, the final price. *)
Definition effect_result (has : bool) (unitPrice : string) (quantity : Z)
    (discountInput : string) : number * string * string :=
  if has && nonempty unitPrice then
    let total := mul (parseFloat unitPrice) (num (inject_Z quantity)) in
    let finalPrice := sub total (num (or_zero (parseFloat discountInput))) in
    if lt finalPrice (num 0) then (total, toFixed2 total, toFixed2 (num 0))
    else (total, discountInput, toFixed2 finalPrice)
  else (num 0, "", "").

(** The effect has nothing left to do. *)
Definition settled (st : FormState) : Prop := price_effect st = st.

(** The fields of the entry form. *)
Definition form_fields (st : FormState) :=
  (selectedProduct st, unitPrice st, quantity st, discountInput st,
   finalPriceCharged st, phoneNumber st, paymentMethod st, searchTerm st).

(** What the effect reads and writes. *)
Definition effect_view (st : FormState) :=
  (has_product st, unitPrice st, quantity st, discountInput st,
   totalPriceCalculated st, finalPriceCharged st).

(** Unfolding of the field accessors and setters. *)
Ltac form_simpl :=
  cbn [searchTerm products filteredProducts selectedProduct unitPrice quantity
       totalPriceCalculated discountInput finalPriceCharged phoneNumber
       paymentMethod message showSuggestions isLoading
       setSearchTerm setProducts setFilteredProducts setSelectedProduct setUnitPrice
       setQuantity setTotalPriceCalculated setDiscountInput setFinalPriceCharged
       setPhoneNumber setPaymentMethod setMessage setShowSuggestions setIsLoading
       has_product effect_view form_fields fst snd] in *.

(** What holds of the form between two events. *)
Definition form_inv (st : FormState) : Prop :=
  settled st
  /\ 1 <= quantity st
  /\ (forall p, selectedProduct st = Some p -> unitPrice st = toFixed2 (price p))
  /\ (selectedProduct st = None -> unitPrice st = "").

(** Sample drafts: a catalogue of one product at 500.00, found by search,
    selected, then its quantity set to 2. *)
Definition visa : ServiceDetail :=
  mkServiceDetail "p1" "Visa Service" "Visa processing" (num 500) "2024-01-01T00:00:00.000Z".

Definition form_loaded : FormState :=
  dispatch (SearchChange "visa") (dispatch (CatalogLoaded [visa]) initial).

Definition form_selected : FormState := dispatch (SelectProduct visa) form_loaded.

Definition form_two : FormState := dispatch (QuantityChange "2") form_selected.

Definition form_tiny_discount : FormState := dispatch (DiscountChange "0.001") form_two.

Definition store_accepts : SellEnv := mkSellEnv "2024-03-15T10:00:00.000Z" true true.

Definition store_fails : SellEnv := mkSellEnv "2024-03-15T10:00:00.000Z" false true.

(** [handleSell] stopped at one of its two validation messages. *)
Definition validation_error (st : FormState) (run : SellRun) : Prop :=
  writes run = []
  /\ (after run = setMessage (Some no_product_msg) st
      \/ after run = setMessage (Some price_error_msg) st).

(** The final price field holds a number that is not negative. *)
Definition valid_final_price (st : FormState) : Prop :=
  exists v, parseFloat (finalPriceCharged st) = Some v /\ (0 <= v)%Q.

(** ** The sales pages and the dashboard *)

Import Dashboard.

(** Noon of a civil date. *)
Definition noon (y m d : Z) : Date := days_from_civil y m d * ms_per_day + 43200000.

(** Sample rows: three units of a visa service sold in January 2024, one in
    January 2025, two tickets in March 2025. *)
Definition sale_a : SellRecord :=
  mkSellRecord "k1" "p1" "Visa Service" 3 (inject_Z 100) 0 (noon 2024 1 10) "cash".
Definition sale_b : SellRecord :=
  mkSellRecord "k2" "p1" "Visa Service" 1 (inject_Z 50) 0 (noon 2025 1 12) "cash".
Definition sale_c : SellRecord :=
  mkSellRecord "k3" "p2" "Ticket" 2 (inject_Z 70) (inject_Z 5) (noon 2025 3 5) "online".

Definition sample_sells : list SellRecord := [sale_a; sale_b; sale_c].

(** The records of a list that belong to one product. *)
Definition of_product (k : string) (sales : list SellRecord) : list SellRecord :=
  List.filter (fun s => String.eqb (sr_productId s) k) sales.


(** [sale.quantity || 1]. *)
Definition quantity_or_one (s : SellRecord) : Z :=
  if sr_quantity s =? 0 then 1 else sr_quantity s.

(** The records of one calendar month (of any year) paid one way. *)
Definition month_sales (paid : SellRecord -> bool) (i : nat) (sales : list SellRecord)
    : list SellRecord :=
  List.filter (fun s => (getMonth (sr_soldAt s) =? Z.of_nat i) && paid s) sales.







(** Only the input of the selected mode can hold a value. *)
Definition page_exclusive (st : PageState) : Prop :=
  (filter st <> day -> selectedDateInput st = "")
  /\ (filter st <> month -> selectedMonthInput st = "")
  /\ (filter st <> year -> selectedYearInput st = "").

(** The modes that need a value, and the value they read. *)
Definition mode_value_missing (st : PageState) : Prop :=
  (filter st = day /\ selectedDateInput st = "")
  \/ (filter st = month /\ selectedMonthInput st = "")
  \/ (filter st = year /\ selectedYearInput st = "").

Definition sold_today (now : Date) (sales : list SellRecord) : list SellRecord :=
  List.filter (fun sale => isToday now (sr_soldAt sale)) sales.

(** The quantity a rollup reports for a product, 0 when it has no group. *)
Definition reported_quantity (m : Obj.t ProductQuantity) (k : string) : Z :=
  match Obj.get k m with Some e => pq_quantity e | None => 0 end.


(** A sales page showing the single sale [sale_c] on the day it was made,
    after the month input was cleared. *)
Definition page_month_cleared : PageState :=
  PageHandlers.onMonthInput "" (mkPage [sale_c] today "" "" "").

(** ** Vocabulary of the further properties *)


(** The order of the quantity list: larger quantities first. *)
Definition more_sold (a b : ProductQuantity) : Prop := pq_quantity b <= pq_quantity a.

(** The order a sort configuration asks for. *)
Definition in_order (cfg : ReportTable.SortConfig) (a b : ProductReportItem) : Prop :=
  match ReportTable.direction cfg with
  | ReportTable.ascending =>
      (ReportTable.field (ReportTable.key cfg) a <= ReportTable.field (ReportTable.key cfg) b)%Q
  | ReportTable.descending =>
      (ReportTable.field (ReportTable.key cfg) b <= ReportTable.field (ReportTable.key cfg) a)%Q
  end.

(** The rows whose sort value is [v]. *)
Definition rows_with (k : ReportTable.SortKey) (v : Q) (rows : list ProductReportItem)
    : list ProductReportItem :=
  List.filter (fun item => Qeq_bool (ReportTable.field k item) v) rows.

(** A sample rollup. *)
Definition sample_rollup : list ProductReportItem := aggregatedProductSales sample_sells.

(** The first instant of the week of [now] and of the week before. *)
Definition this_week_start (now : Date) : Date := getStartOfWeek now.
Definition last_week_start (now : Date) : Date := addDays (getStartOfWeek now) (-7).



(** The year [new Date(year, ...)] means. *)
Definition date_year (year : Z) : Z :=
  if (0 <=? year) && (year <=? 99) then 1900 + year else year.

(** A sale of the civil year [y], and one of its month [m] (1 to 12). *)
Definition sold_in_year (y : Z) (sale : SellRecord) : bool :=
  getFullYear (sr_soldAt sale) =? y.

Definition sold_in_month (y m : Z) (sale : SellRecord) : bool :=
  (getFullYear (sr_soldAt sale) =? y) && (getMonth (sr_soldAt sale) =? m - 1).

(* ================================================================== *)
(** * Facts about the JavaScript primitives *)
(* ================================================================== *)

Example parseFloat_ex1 : parseFloat "12.50" = Some (1250 # 100).
Proof. reflexivity. Qed.
Example parseFloat_ex2 : parseFloat "  -0.001x" = Some (- (1 # 1000))%Q.
Proof. reflexivity. Qed.
Example parseFloat_ex3 : parseFloat "" = None /\ parseFloat "abc" = None /\ parseFloat "." = None.
Proof. repeat split. Qed.
Example parseFloat_ex4 : parseFloat "1e3" = Some (inject_Z 1000) /\ parseFloat "5." = Some (inject_Z 5)
   /\ parseFloat ".5e-1" = Some (5 # 100) /\ parseFloat "7e" = Some (inject_Z 7).
Proof. repeat split. Qed.
Example toFixed2_ex1 : toFixed2 (Some (1999 # 2)) = "999.50" /\ toFixed2 (Some (99999 # 1000)) = "100.00"
   /\ toFixed2 (Some 0%Q) = "0.00" /\ toFixed2 (Some (- (1 # 1000))%Q) = "-0.00"
   /\ toFixed2 (Some (5 # 1000)) = "0.01" /\ toFixed2 (Some (-(25 # 10))%Q) = "-2.50".
Proof. repeat split. Qed.
Example parseInt_ex1 : parseInt "42" = Some 42 /\ parseInt "-3" = Some (-3) /\ parseInt "1.9" = Some 1
   /\ parseInt "" = None /\ parseInt "abc" = None /\ parseInt " 07x" = Some 7.
Proof. repeat split. Qed.
Example trim_ex1 : trim "  a b  " = "a b" /\ trim "   " = "".
Proof. repeat split. Qed.


Lemma digit_char_spec d :
  0 <= d < 10 -> is_digit (digit_char d) = true /\ digit_val (digit_char d) = d.
Proof.
  intros H.
  assert (E : d = 0 \/ d = 1 \/ d = 2 \/ d = 3 \/ d = 4 \/ d = 5 \/ d = 6 \/ d = 7
              \/ d = 8 \/ d = 9) by lia.
  repeat (destruct E as [E | E]; [subst d; split; reflexivity | ]).
  subst d; split; reflexivity.
Qed.

Lemma digits_value_app s1 s2 acc :
  digits_value acc (s1 ++ s2) = digits_value (digits_value acc s1) s2.
Proof.
  revert acc; induction s1 as [| c s1 IH]; intros acc; simpl; [reflexivity | apply IH].
Qed.

Lemma all_digits_app s1 s2 :
  all_digits (s1 ++ s2) = all_digits s1 && all_digits s2.
Proof.
  induction s1 as [| c s1 IH]; cbn [append all_digits]; [reflexivity |].
  rewrite IH, andb_assoc; reflexivity.
Qed.

Lemma span_digits_app s1 s2 :
  all_digits s1 = true -> leading_digit s2 = false ->
  span_digits (s1 ++ s2) = (s1, s2).
Proof.
  intros H1 H2; induction s1 as [| c s1 IH]; cbn [append span_digits all_digits] in *.
  - destruct s2 as [| c r]; [reflexivity |].
    cbn [leading_digit span_digits] in *; rewrite H2; reflexivity.
  - apply andb_prop in H1 as [Hc Hr]. rewrite Hc, (IH Hr); reflexivity.
Qed.

Lemma digits_fuel_S f n :
  digits_fuel (S f) n =
  if n <? 10 then String (digit_char n) EmptyString
  else (digits_fuel f (n / 10) ++ String (digit_char (n mod 10)) EmptyString)%string.
Proof. reflexivity. Qed.

Lemma digits_fuel_spec f n :
  0 <= n < 10 ^ Z.of_nat (S f) ->
  all_digits (digits_fuel (S f) n) = true
  /\ leading_digit (digits_fuel (S f) n) = true
  /\ digits_value 0 (digits_fuel (S f) n) = n.
Proof.
  revert n; induction f as [| f IH]; intros n Hn.
  - change (10 ^ Z.of_nat 1) with 10 in Hn.
    cbn [digits_fuel]. destruct (Z.ltb_spec n 10) as [_ | ?]; [| lia].
    destruct (digit_char_spec n Hn) as [Hd Hv].
    cbn [all_digits leading_digit digits_value]. rewrite Hd, Hv. auto.
  - rewrite (digits_fuel_S (S f) n). destruct (Z.ltb_spec n 10) as [Hlt | Hge].
    + destruct (digit_char_spec n) as [Hd Hv]; [lia |].
      cbn [all_digits leading_digit digits_value]. rewrite Hd, Hv. auto.
    + assert (Hq : 0 <= n / 10 < 10 ^ Z.of_nat (S f)).
      { split; [apply Z.div_pos; lia |].
        apply Z.div_lt_upper_bound; [lia |].
        replace (Z.of_nat (S (S f))) with (Z.succ (Z.of_nat (S f))) in Hn by lia.
        rewrite Z.pow_succ_r in Hn by lia. lia. }
      destruct (IH _ Hq) as (Ha & Hl & Hv).
      destruct (digit_char_spec (n mod 10)) as [Hd Hdv]; [apply Z.mod_pos_bound; lia |].
      rewrite all_digits_app, digits_value_app, Ha, Hv.
      cbn [all_digits digits_value]. rewrite Hd, Hdv.
      repeat split.
      * destruct (digits_fuel (S f) (n / 10)); [discriminate Hl | exact Hl].
      * pose proof (Z.div_mod n 10). lia.
Qed.

Lemma digits_spec n :
  0 <= n ->
  all_digits (digits n) = true /\ leading_digit (digits n) = true
  /\ digits_value 0 (digits n) = n.
Proof.
  intros Hn; apply digits_fuel_spec. split; [exact Hn |].
  destruct (Z.eq_dec n 0) as [-> | Hz]; [reflexivity |].
  rewrite Nat2Z.inj_succ, Z2Nat.id by apply Z.log2_nonneg.
  apply Z.lt_le_trans with (2 ^ Z.succ (Z.log2 n)).
  - apply Z.log2_spec; lia.
  - apply Z.pow_le_mono_l; lia.
Qed.

Lemma digit_not_space c : is_digit c = true -> is_space c = false.
Proof.
  unfold is_digit, is_space; cbv zeta; intros H.
  apply andb_prop in H as [H1 H2].
  apply Nat.leb_le in H1; apply Nat.leb_le in H2.
  repeat rewrite orb_false_iff; repeat split.
  - apply andb_false_iff; right; apply Nat.leb_gt; lia.
  - apply Nat.eqb_neq; lia.
  - apply Nat.eqb_neq; lia.
Qed.

Lemma read_sign_digit c r :
  is_digit c = true -> read_sign (String c r) = (false, String c r).
Proof.
  destruct c as [[] [] [] [] [] [] [] []]; intros H; try discriminate H; reflexivity.
Qed.

Lemma span_digits_all s : all_digits s = true -> span_digits s = (s, "").
Proof.
  intros H; induction s as [| c s IH]; cbn [span_digits all_digits] in *; [reflexivity |].
  apply andb_prop in H as [Hc Hr]. rewrite Hc, (IH Hr); reflexivity.
Qed.

Lemma parseFloat_decimal ip fp :
  all_digits ip = true -> leading_digit ip = true -> all_digits fp = true ->
  parseFloat (ip ++ String "." fp)
  = Some (scale10 (digits_value 0 (ip ++ fp)) (0 - Z.of_nat (String.length fp))).
Proof.
  intros Ha Hl Hf. unfold parseFloat.
  destruct ip as [| c r]; [discriminate Hl |]. cbn [leading_digit] in Hl.
  cbn [append skip_ws]. rewrite (digit_not_space _ Hl), (read_sign_digit _ _ Hl).
  change (String c (r ++ String "." fp)) with (String c r ++ String "." fp)%string.
  rewrite (span_digits_app (String c r) (String "." fp) Ha eq_refl).
  rewrite (span_digits_all _ Hf). reflexivity.
Qed.

Lemma hundredths_digits n :
  0 <= n -> (n / 100 * 10 + (n / 10) mod 10) * 10 + n mod 10 = n.
Proof.
  intros Hn.
  pose proof (Z.div_mod n 10 ltac:(lia)) as H1.
  pose proof (Z.div_mod (n / 10) 10 ltac:(lia)) as H2.
  rewrite Z.div_div in H2 by lia. change (10 * 10) with 100 in H2. lia.
Qed.

Lemma parseFloat_fixed2_digits n :
  0 <= n -> parseFloat (fixed2_digits n) = Some (n # 100).
Proof.
  intros Hn. unfold fixed2_digits.
  destruct (digits_spec (n / 100)) as (Ha & Hl & Hv); [apply Z.div_pos; lia |].
  destruct (digit_char_spec ((n / 10) mod 10)) as [Hd1 Hv1]; [apply Z.mod_pos_bound; lia |].
  destruct (digit_char_spec (n mod 10)) as [Hd0 Hv0]; [apply Z.mod_pos_bound; lia |].
  change ("." ++ ?x)%string with (String "." x).
  rewrite parseFloat_decimal; auto.
  - rewrite digits_value_app, Hv. cbn [digits_value String.length].
    rewrite Hv1, Hv0, hundredths_digits by exact Hn. reflexivity.
  - cbn [all_digits]. rewrite Hd1, Hd0. reflexivity.
Qed.

Lemma parseFloat_neg s c r q :
  s = String c r -> is_digit c = true -> parseFloat s = Some q ->
  parseFloat (String "-" s) = Some (- q)%Q.
Proof.
  intros -> Hc. unfold parseFloat.
  cbn [skip_ws]. rewrite (digit_not_space _ Hc), (read_sign_digit _ _ Hc).
  change (is_space "-") with false. cbv iota.
  change (read_sign (String "-" (String c r))) with (true, String c r).
  cbv iota beta.
  destruct (span_digits (String c r)) as [ip r1].
  destruct (match r1 with String "." r0 => span_digits r0 | _ => (EmptyString, r1) end) as [fp r2].
  destruct (ip ++ fp)%string; [discriminate |].
  intros [= <-]. reflexivity.
Qed.

Lemma round_hundredths_nonneg q : (0 <= q)%Q -> 0 <= round_hundredths q.
Proof.
  intros H. unfold round_hundredths.
  change 0 with (Qfloor 0). apply Qfloor_resp_le. lra.
Qed.

Lemma Qltb_lt a b : Qltb a b = true <-> (a < b)%Q.
Proof.
  unfold Qltb. rewrite negb_true_iff. split.
  - intros H. apply Qnot_le_lt. intros Hle. apply Qle_bool_iff in Hle. congruence.
  - intros H. destruct (Qle_bool b a) eqn:E; [| reflexivity].
    apply Qle_bool_iff in E. lra.
Qed.

Lemma Qltb_ge a b : Qltb a b = false <-> (b <= a)%Q.
Proof.
  unfold Qltb. rewrite negb_false_iff. apply Qle_bool_iff.
Qed.

Theorem parseFloat_toFixed2 q : parseFloat (toFixed2 (Some q)) = Some (round2 q).
Proof.
  unfold toFixed2, round2. destruct (Qltb q 0) eqn:E.
  - apply Qltb_lt in E.
    assert (Hn : 0 <= round_hundredths (- q)) by (apply round_hundredths_nonneg; lra).
    pose proof (parseFloat_fixed2_digits _ Hn) as Hp.
    unfold fixed2_digits in *.
    destruct (digits_spec (round_hundredths (- q) / 100)) as (_ & Hl & _);
      [apply Z.div_pos; lia |].
    destruct (digits (round_hundredths (- q) / 100)) as [| c r]; [discriminate Hl |].
    cbn [append] in *. eapply parseFloat_neg; eauto.
  - apply Qltb_ge in E. apply parseFloat_fixed2_digits, round_hundredths_nonneg, E.
Qed.

Lemma Qfloor_half z : Qfloor (inject_Z z + (1 # 2))%Q = z.
Proof.
  pose proof (Qfloor_le (inject_Z z + (1 # 2))) as H1.
  pose proof (Qlt_floor (inject_Z z + (1 # 2))) as H2.
  set (f := Qfloor (inject_Z z + (1 # 2))) in *.
  assert (Ha : (inject_Z f < inject_Z (z + 1))%Q).
  { rewrite inject_Z_plus. change (inject_Z 1) with 1%Q. lra. }
  assert (Hb : (inject_Z z < inject_Z (f + 1))%Q) by lra.
  rewrite <- Zlt_Qlt in Ha, Hb. lia.
Qed.

Lemma round_hundredths_comp x y : (x == y)%Q -> round_hundredths x = round_hundredths y.
Proof. intros H. unfold round_hundredths. apply Qfloor_comp. rewrite H. reflexivity. Qed.

Lemma Qltb_comp x y a b : (x == y)%Q -> (a == b)%Q -> Qltb x a = Qltb y b.
Proof.
  intros H1 H2. destruct (Qltb y b) eqn:E.
  - apply Qltb_lt. apply Qltb_lt in E. lra.
  - apply Qltb_ge. apply Qltb_ge in E. lra.
Qed.

Lemma round2_comp x y : (x == y)%Q -> round2 x = round2 y.
Proof.
  intros H. unfold round2.
  rewrite (Qltb_comp x y 0 0 H) by reflexivity.
  rewrite (round_hundredths_comp x y H).
  rewrite (round_hundredths_comp (- x) (- y)) by (rewrite H; reflexivity).
  reflexivity.
Qed.

Lemma toFixed2_comp x y : (x == y)%Q -> toFixed2 (Some x) = toFixed2 (Some y).
Proof.
  intros H. unfold toFixed2.
  rewrite (Qltb_comp x y 0 0 H) by reflexivity.
  rewrite (round_hundredths_comp x y H).
  rewrite (round_hundredths_comp (- x) (- y)) by (rewrite H; reflexivity).
  reflexivity.
Qed.

Lemma round_hundredths_cents z : round_hundredths (z # 100) = z.
Proof.
  unfold round_hundredths. rewrite <- (Qfloor_half z) at 2.
  apply Qfloor_comp. rewrite (Qmake_Qdiv z 100). field.
Qed.

Lemma cents_sign z : ((z # 100) < 0)%Q <-> z < 0.
Proof. unfold Qlt. simpl. lia. Qed.

Lemma round2_cents q : is_cents q -> (round2 q == q)%Q.
Proof.
  intros [z Hz]. rewrite (round2_comp _ _ Hz), Hz. unfold round2.
  destruct (Qltb (z # 100) 0) eqn:E.
  - replace (- (z # 100))%Q with ((- z) # 100)%Q by reflexivity.
    rewrite round_hundredths_cents. unfold Qeq; simpl; lia.
  - rewrite round_hundredths_cents. reflexivity.
Qed.




Lemma is_cents_comp a b : (a == b)%Q -> is_cents a -> is_cents b.
Proof. intros H [z Hz]. exists z. rewrite <- H. exact Hz. Qed.

Lemma round2_nonneg q : (0 <= q)%Q -> (0 <= round2 q)%Q.
Proof.
  intros H. unfold round2.
  destruct (Qltb q 0) eqn:E; [apply Qltb_lt in E; lra |].
  pose proof (round_hundredths_nonneg q H). unfold Qle; simpl; lia.
Qed.


(* ================================================================== *)
(** * Facts about the sale entry form *)
(* ================================================================== *)

Lemma price_effect_eq st :
  price_effect st =
  let '(t, d, f) :=
    effect_result (has_product st) (unitPrice st) (quantity st) (discountInput st) in
  setFinalPriceCharged f (setDiscountInput d (setTotalPriceCalculated t st)).
Proof.
  unfold price_effect, effect_result, has_product, formatCurrency.
  destruct st as [sT ps fps sel up q tot di fin ph pm msg sh il]. form_simpl.
  destruct sel; cbn [andb]; [| reflexivity].
  destruct (nonempty up); [| reflexivity].
  destruct (lt _ _); reflexivity.
Qed.

Lemma settled_iff st :
  settled st <->
  effect_result (has_product st) (unitPrice st) (quantity st) (discountInput st)
  = (totalPriceCalculated st, discountInput st, finalPriceCharged st).
Proof.
  unfold settled. rewrite price_effect_eq.
  destruct (effect_result _ _ _ _) as [[t d] f].
  destruct st as [sT ps fps sel up q tot di fin ph pm msg sh il]. form_simpl.
  split; [intros [= -> -> ->] | intros [= -> -> ->]]; reflexivity.
Qed.

(** Two states the effect cannot tell apart are settled together. *)
Lemma settled_view st st' : effect_view st' = effect_view st -> settled st -> settled st'.
Proof.
  unfold effect_view. intros [= H1 H2 H3 H4 H5 H6]. rewrite !settled_iff.
  rewrite H1, H2, H3, H4, H5, H6. auto.
Qed.

Lemma effect_result_discount_idem has up q d :
  let '(_, d1, _) := effect_result has up q d in
  let '(_, d2, _) := effect_result has up q d1 in d2 = d1.
Proof.
  unfold effect_result. destruct (has && nonempty up); [| reflexivity].
  set (total := mul (parseFloat up) (num (inject_Z q))).
  destruct (lt (sub total (num (or_zero (parseFloat d)))) (num 0)) eqn:E.
  - destruct (lt (sub total (num (or_zero (parseFloat (toFixed2 total))))) (num 0));
      reflexivity.
  - rewrite E. reflexivity.
Qed.

Lemma price_effect_view st :
  effect_view (price_effect st) =
  let '(t, d, f) :=
    effect_result (has_product st) (unitPrice st) (quantity st) (discountInput st) in
  (has_product st, unitPrice st, quantity st, d, t, f).
Proof.
  rewrite price_effect_eq. destruct (effect_result _ _ _ _) as [[t d] f]. reflexivity.
Qed.

Lemma price_effect_settles st :
  discountInput (price_effect st) = discountInput st -> settled (price_effect st).
Proof.
  intros H. apply settled_iff.
  pose proof (price_effect_view st) as V.
  destruct (effect_result (has_product st) _ _ _) as [[t d] f] eqn:E.
  unfold effect_view in V. injection V as V1 V2 V3 V4 V5 V6.
  rewrite V1, V2, V3, V5, V6, H, E. rewrite <- H, V4. reflexivity.
Qed.

Lemma price_effect_twice st :
  discountInput (price_effect (price_effect st)) = discountInput (price_effect st).
Proof.
  pose proof (price_effect_view st) as V.
  pose proof (price_effect_view (price_effect st)) as V'.
  pose proof (effect_result_discount_idem (has_product st) (unitPrice st) (quantity st)
                (discountInput st)) as I.
  destruct (effect_result (has_product st) _ _ (discountInput st)) as [[t d] f].
  unfold effect_view in V. injection V as V1 V2 V3 V4 V5 V6.
  rewrite V1, V2, V3, V4 in V'.
  destruct (effect_result (has_product st) _ _ d) as [[t' d'] f'].
  unfold effect_view in V'. injection V' as _ _ _ W _ _.
  rewrite W, V4. exact I.
Qed.

Lemma deps_eqb_discount a b : deps_eqb a b = true -> discountInput a = discountInput b.
Proof.
  unfold deps_eqb. intros H. apply andb_prop in H as [_ H]. apply String.eqb_eq, H.
Qed.

(** Two rounds of the effect reach its fixed point. *)
Lemma run_effects_settled st : settled (run_effects 2 st).
Proof.
  cbn [run_effects].
  destruct (deps_eqb st (price_effect st)) eqn:E.
  - apply price_effect_settles. symmetry. apply deps_eqb_discount, E.
  - assert (S2 : settled (price_effect (price_effect st)))
      by apply price_effect_settles, price_effect_twice.
    destruct (deps_eqb (price_effect st) (price_effect (price_effect st))); exact S2.
Qed.

Lemma deps_eqb_refl st : deps_eqb st st = true.
Proof.
  unfold deps_eqb. rewrite !String.eqb_refl, Z.eqb_refl.
  destruct (selectedProduct st); cbn; rewrite ?String.eqb_refl; reflexivity.
Qed.

(** More fuel changes nothing. *)
Lemma run_effects_stable k st : run_effects (2 + k) st = run_effects 2 st.
Proof.
  assert (F : forall n s, settled s -> run_effects n s = s).
  { intros n s Hs. destruct n; [reflexivity |]. cbn [run_effects].
    rewrite Hs, deps_eqb_refl. reflexivity. }
  change (2 + k)%nat with (S (S k)). cbn [run_effects].
  destruct (deps_eqb st (price_effect st)); [reflexivity |].
  assert (S2 : settled (price_effect (price_effect st)))
    by apply price_effect_settles, price_effect_twice.
  destruct (deps_eqb (price_effect st) _); [reflexivity |].
  apply F, S2.
Qed.

Lemma price_effect_keeps st :
  selectedProduct (price_effect st) = selectedProduct st
  /\ unitPrice (price_effect st) = unitPrice st
  /\ quantity (price_effect st) = quantity st
  /\ phoneNumber (price_effect st) = phoneNumber st
  /\ paymentMethod (price_effect st) = paymentMethod st
  /\ searchTerm (price_effect st) = searchTerm st.
Proof.
  rewrite price_effect_eq. destruct (effect_result _ _ _ _) as [[t d] f].
  repeat split.
Qed.

Lemma run_effects_keeps n st :
  selectedProduct (run_effects n st) = selectedProduct st
  /\ unitPrice (run_effects n st) = unitPrice st
  /\ quantity (run_effects n st) = quantity st
  /\ phoneNumber (run_effects n st) = phoneNumber st
  /\ paymentMethod (run_effects n st) = paymentMethod st
  /\ searchTerm (run_effects n st) = searchTerm st.
Proof.
  revert st; induction n as [| n IH]; intros st; [repeat split |].
  cbn [run_effects].
  destruct (price_effect_keeps st) as (H1 & H2 & H3 & H4 & H5 & H6).
  destruct (deps_eqb st (price_effect st)).
  - repeat split; assumption.
  - destruct (IH (price_effect st)) as (K1 & K2 & K3 & K4 & K5 & K6).
    repeat split; congruence.
Qed.

Lemma rerender_keeps prev st :
  selectedProduct (rerender prev st) = selectedProduct st
  /\ unitPrice (rerender prev st) = unitPrice st
  /\ quantity (rerender prev st) = quantity st
  /\ phoneNumber (rerender prev st) = phoneNumber st
  /\ paymentMethod (rerender prev st) = paymentMethod st
  /\ searchTerm (rerender prev st) = searchTerm st.
Proof.
  unfold rerender. destruct (deps_eqb prev st); [repeat split | apply run_effects_keeps].
Qed.

Lemma handleSell_cases env st :
  (effect_view (after (handleSell env st)) = effect_view st
   /\ selectedProduct (after (handleSell env st)) = selectedProduct st
   /\ form_fields (after (handleSell env st)) = form_fields st)
  \/ (exists p, selectedProduct st = Some p
      /\ write_ok env = true
      /\ writes (handleSell env st) <> []
      /\ form_fields (after (handleSell env st)) = (None, "", 1, "", "", "", cash, "")
      /\ totalPriceCalculated (after (handleSell env st)) = num 0).
Proof.
  unfold handleSell. destruct (selectedProduct st) as [p |] eqn:Sel.
  - destruct (isNaN _ || lt _ _).
    + left. cbn [after]. unfold effect_view, form_fields, has_product. form_simpl.
      rewrite Sel. auto.
    + destruct (write_ok env).
      * right. exists p. cbn [after writes]. repeat split; discriminate.
      * left. cbn [after]. unfold effect_view, form_fields, has_product. form_simpl.
        rewrite Sel. auto.
  - left. cbn [after]. unfold effect_view, form_fields, has_product. form_simpl.
    rewrite Sel. auto.
Qed.

Lemma same_product_some a p : same_product a (Some p) = true -> exists x, a = Some x.
Proof. destruct a; [eauto | discriminate]. Qed.

Lemma deps_eqb_view st st' :
  deps_eqb st st' = true ->
  totalPriceCalculated st' = totalPriceCalculated st ->
  finalPriceCharged st' = finalPriceCharged st ->
  effect_view st' = effect_view st.
Proof.
  unfold deps_eqb, effect_view, has_product. intros H Ht Hf.
  apply andb_prop in H as [H Hd]. apply andb_prop in H as [H Hq].
  apply andb_prop in H as [Hs Hu].
  apply String.eqb_eq in Hd, Hu. apply Z.eqb_eq in Hq.
  rewrite Ht, Hf, Hd, Hu, Hq.
  destruct (selectedProduct st), (selectedProduct st'); try discriminate; reflexivity.
Qed.

Lemma handleDiscountChange_discount v st : discountInput (handleDiscountChange v st) = v.
Proof.
  unfold handleDiscountChange.
  destruct (gt _ _ && _ && _); [reflexivity |]. destruct (_ || _ || _); reflexivity.
Qed.

Lemma handleDiscountChange_keeps v st :
  selectedProduct (handleDiscountChange v st) = selectedProduct st
  /\ unitPrice (handleDiscountChange v st) = unitPrice st
  /\ quantity (handleDiscountChange v st) = quantity st
  /\ phoneNumber (handleDiscountChange v st) = phoneNumber st
  /\ paymentMethod (handleDiscountChange v st) = paymentMethod st
  /\ searchTerm (handleDiscountChange v st) = searchTerm st.
Proof.
  unfold handleDiscountChange.
  destruct (gt _ _ && _ && _); [repeat split |]. destruct (_ || _ || _); repeat split.
Qed.

Lemma handleSearchChange_view v st :
  effect_view (handleSearchChange v st) = effect_view st
  /\ selectedProduct (handleSearchChange v st) = selectedProduct st.
Proof. unfold handleSearchChange. destruct (String.eqb _ _); split; reflexivity. Qed.

(** The effect has always settled when the next event arrives. *)
Lemma dispatch_settled ev st : settled st -> enabled ev st -> settled (dispatch ev st).
Proof.
  intros Hs He. unfold dispatch, rerender.
  destruct (deps_eqb st (handle ev st)) eqn:E; [| apply run_effects_settled].
  apply settled_view with (st := st); [| exact Hs].
  destruct ev; cbn [handle] in *.
  - reflexivity.
  - apply handleSearchChange_view.
  - reflexivity.
  - apply deps_eqb_view; [exact E | reflexivity | reflexivity].
  - apply deps_eqb_view; [exact E | reflexivity | reflexivity].
  - apply deps_eqb_discount in E. rewrite handleDiscountChange_discount in E.
    destruct He as [_ He]. congruence.
  - reflexivity.
  - reflexivity.
  - destruct (handleSell_cases env st) as [(V & _) | (p & Sel & _ & _ & F & _)]; [exact V |].
    unfold deps_eqb in E. unfold form_fields in F. injection F as F _.
    rewrite F, Sel in E. discriminate E.
Qed.

Lemma initial_inv : form_inv initial.
Proof. repeat split; discriminate. Qed.

Lemma dispatch_inv ev st : form_inv st -> enabled ev st -> form_inv (dispatch ev st).
Proof.
  intros (Hs & Hq & Hu & Hn) He. split; [apply dispatch_settled; assumption |].
  unfold dispatch.
  destruct (rerender_keeps st (handle ev st)) as (K1 & K2 & K3 & _).
  rewrite K1, K2, K3. clear K1 K2 K3.
  destruct ev; cbn [handle].
  - auto.
  - destruct (handleSearchChange_view value st) as [V S]. rewrite S.
    unfold effect_view in V. injection V as _ V2 V3 _ _ _. rewrite V2, V3. auto.
  - auto.
  - unfold handleSelectProduct. form_simpl. repeat split; [lia | | discriminate].
    intros p [= <-]. reflexivity.
  - unfold handleQuantityChange. form_simpl. repeat split; [lia | assumption | assumption].
  - destruct (handleDiscountChange_keeps value st) as (D1 & D2 & D3 & _).
    rewrite D1, D2, D3. auto.
  - auto.
  - auto.
  - destruct (handleSell_cases env st) as [(V & S & _) | (p & _ & _ & _ & F & _)].
    + rewrite S. unfold effect_view in V. injection V as _ V2 V3 _ _ _.
      rewrite V2, V3. auto.
    + unfold form_fields in F. injection F as F1 F2 F3 _ _ _ _ _.
      rewrite F1, F2, F3. repeat split; [lia | discriminate].
Qed.

Lemma reachable_inv st : reachable st -> form_inv st.
Proof.
  induction 1 as [| st ev _ IH He]; [apply initial_inv | apply dispatch_inv; assumption].
Qed.

Lemma parseFloat_nonempty s q : parseFloat s = Some q -> nonempty s = true.
Proof. destruct s; [discriminate | reflexivity]. Qed.

Lemma settled_run_effects st : settled (price_effect st) -> run_effects 2 st = price_effect st.
Proof.
  intros H. cbn [run_effects].
  destruct (deps_eqb st (price_effect st)); [reflexivity |].
  rewrite H. destruct (deps_eqb _ _); reflexivity.
Qed.

Lemma lt_num a b : lt (num a) (num b) = Qltb a b.
Proof. reflexivity. Qed.







Lemma handleSell_accepts env st p v :
  selectedProduct st = Some p -> parseFloat (finalPriceCharged st) = Some v -> (0 <= v)%Q ->
  writes (handleSell env st) = [makeSellData env p (Some v) st].
Proof.
  intros Hp Hf Hv. unfold handleSell. rewrite Hp, Hf.
  cbn [isNaN orb]. rewrite lt_num.
  assert (E : Qltb v 0 = false) by (apply Qltb_ge; exact Hv). rewrite E.
  destruct (write_ok env); reflexivity.
Qed.


(* ================================================================== *)
(** * The claims about the sale entry form *)
(* ================================================================== *)

Lemma form_two_reachable : reachable form_two.
Proof.
  unfold form_two, form_selected, form_loaded.
  apply reachable_dispatch; [| vm_compute; discriminate].
  apply reachable_dispatch; [| vm_compute; auto].
  apply reachable_dispatch; [| exact I].
  apply reachable_dispatch; [| exact I].
  apply reachable_initial.
Qed.

Lemma form_tiny_discount_reachable : reachable form_tiny_discount.
Proof.
  apply reachable_dispatch; [apply form_two_reachable |].
  split; vm_compute; discriminate.
Qed.









(** C7. [handleSell] stops at a validation error, having passed nothing to
    the store, exactly when no product is selected or the final price field
    does not hold a non-negative number; in every other case it passes one
    record to the store. *)
Theorem sell_rejects_exactly_invalid_drafts env st :
  (validation_error st (handleSell env st)
   <-> selectedProduct st = None \/ ~ valid_final_price st)
  /\ (~ validation_error st (handleSell env st)
      -> exists p v,
           selectedProduct st = Some p
           /\ parseFloat (finalPriceCharged st) = Some v /\ (0 <= v)%Q
           /\ writes (handleSell env st) = [makeSellData env p (Some v) st]).
Proof.
  unfold validation_error, valid_final_price.
  destruct (selectedProduct st) as [p |] eqn:Hp.
  - destruct (parseFloat (finalPriceCharged st)) as [v |] eqn:Hf.
    + destruct (Qltb v 0) eqn:E.
      * assert (R : handleSell env st = mkSellRun (setMessage (Some price_error_msg) st) [] []).
        { unfold handleSell. rewrite Hp, Hf. cbn [isNaN orb]. rewrite lt_num, E. reflexivity. }
        rewrite R. cbn [writes after]. apply Qltb_lt in E. split.
        -- split; [intros _; right | intros _; auto].
           intros (w & [= <-] & Hw). lra.
        -- intros H. exfalso. apply H. auto.
      * apply Qltb_ge in E.
        pose proof (handleSell_accepts env st p v Hp Hf E) as W. rewrite W. split.
        -- split; [intros [[=] _] | intros [[=] | H]]. exfalso. apply H. eauto.
        -- intros _. exists p, v. auto.
    + assert (R : handleSell env st = mkSellRun (setMessage (Some price_error_msg) st) [] []).
      { unfold handleSell. rewrite Hp, Hf. reflexivity. }
      rewrite R. cbn [writes after]. split.
      * split; [intros _; right | intros _; auto]. intros (w & [=] & _).
      * intros H. exfalso. apply H. auto.
  - assert (R : handleSell env st = mkSellRun (setMessage (Some no_product_msg) st) [] []).
    { unfold handleSell. rewrite Hp. reflexivity. }
    rewrite R. cbn [writes after]. split.
    + split; [intros _; left; reflexivity | intros _; auto].
    + intros H. exfalso. apply H. auto.
Qed.

Lemma sell_rejects_exactly_invalid_drafts_witness :
  exists p v,
    selectedProduct form_two = Some p
    /\ parseFloat (finalPriceCharged form_two) = Some v /\ (0 <= v)%Q
    /\ writes (handleSell store_accepts form_two) = [makeSellData store_accepts p (Some v) form_two].
Proof.
  apply (proj2 (sell_rejects_exactly_invalid_drafts store_accepts form_two)).
  unfold validation_error. vm_compute. intros [H _]. discriminate H.
Defined.

Lemma run_effects_fixed n st : settled st -> run_effects n st = st.
Proof.
  intros Hs. destruct n; [reflexivity |]. cbn [run_effects].
  rewrite Hs, deps_eqb_refl. reflexivity.
Qed.

Lemma rerender_fields_same st st' :
  effect_view st' = effect_view st -> selectedProduct st' = selectedProduct st ->
  rerender st st' = st'.
Proof.
  intros V S. unfold rerender.
  assert (E : deps_eqb st st' = true); [| rewrite E; reflexivity].
  unfold effect_view in V. injection V as _ V2 V3 V4 _ _.
  unfold deps_eqb. rewrite S, V2, V3, V4, !String.eqb_refl, Z.eqb_refl.
  destruct (selectedProduct st); cbn; rewrite ?String.eqb_refl; reflexivity.
Qed.

(** C9. When the store write of [handleSell] fails, every field of the
    form is as it was, also after the render that follows; the fields change
    only when a write was made and succeeded, and then they are all reset. *)
Theorem failed_write_keeps_the_form env st :
  (write_ok env = false ->
   form_fields (after (handleSell env st)) = form_fields st
   /\ form_fields (dispatch (Sell env) st) = form_fields st)
  /\ (form_fields (dispatch (Sell env) st) <> form_fields st ->
      write_ok env = true
      /\ writes (handleSell env st) <> []
      /\ form_fields (dispatch (Sell env) st) = form_fields initial).
Proof.
  unfold dispatch. cbn [handle].
  destruct (handleSell_cases env st) as [(V & S & F) | (p & Hp & Hw & Hn & F & T)].
  - rewrite (rerender_fields_same _ _ V S). split.
    + intros _. auto.
    + intros H. contradiction.
  - assert (R : rerender st (after (handleSell env st)) = after (handleSell env st)).
    { unfold rerender. destruct (deps_eqb _ _); [reflexivity |].
      apply run_effects_fixed, settled_iff.
      unfold form_fields in F. injection F as F1 F2 F3 F4 F5 _ _ _.
      unfold has_product. rewrite F1, F2, F3, F4, F5, T. reflexivity. }
    rewrite R. split.
    + intros H. congruence.
    + intros _. repeat split; assumption.
Qed.

Lemma failed_write_keeps_the_form_witness :
  form_fields (after (handleSell store_fails form_two)) = form_fields form_two
  /\ form_fields (dispatch (Sell store_fails) form_two) = form_fields form_two.
Proof.
  apply (proj1 (failed_write_keeps_the_form store_fails form_two)). reflexivity.
Defined.

(** C10. Whatever string is entered into the quantity input, the quantity
    becomes max(1, parsed integer), and 1 when the string holds no integer;
    the quantity of every reachable state is an integer that is at least 1. *)
Theorem quantity_stays_positive st :
  reachable st ->
  1 <= quantity st
  /\ (forall value,
        quantity (dispatch (QuantityChange value) st)
        = Z.max 1 (match parseInt value with Some n => n | None => 1 end))
  /\ (forall value, parseInt value = None ->
        quantity (dispatch (QuantityChange value) st) = 1).
Proof.
  intros Hr. destruct (reachable_inv _ Hr) as (_ & Hq & _).
  assert (Q : forall value,
             quantity (dispatch (QuantityChange value) st)
             = Z.max 1 (match parseInt value with Some n => n | None => 1 end)).
  { intros value. unfold dispatch.
    destruct (rerender_keeps st (handle (QuantityChange value) st)) as (_ & _ & K & _).
    rewrite K. reflexivity. }
  repeat split; [exact Hq | exact Q |].
  intros value Hv. rewrite Q, Hv. reflexivity.
Qed.

Lemma quantity_stays_positive_witness :
  1 <= quantity form_two
  /\ (forall value,
        quantity (dispatch (QuantityChange value) form_two)
        = Z.max 1 (match parseInt value with Some n => n | None => 1 end))
  /\ (forall value, parseInt value = None ->
        quantity (dispatch (QuantityChange value) form_two) = 1).
Proof.
  apply (quantity_stays_positive form_two). apply form_two_reachable.
Defined.

(* ================================================================== *)
(** * The claims about the sales pages *)
(* ================================================================== *)

(** ** Objects as maps *)

Section ObjFacts.
Context {V : Type}.
Implicit Types (m : Obj.t V) (k : string) (v : V).

Lemma get_set_same k v m : Obj.get k (Obj.set k v m) = Some v.
Proof.
  induction m as [| [k' v'] m IH]; cbn [Obj.set Obj.get].
  - rewrite String.eqb_refl. reflexivity.
  - destruct (String.eqb k k') eqn:E; cbn [Obj.get]; rewrite ?String.eqb_refl, ?E; auto.
Qed.

Lemma get_set_other k k' v m : k <> k' -> Obj.get k (Obj.set k' v m) = Obj.get k m.
Proof.
  intros Hn. apply String.eqb_neq in Hn.
  induction m as [| [k2 v2] m IH]; cbn [Obj.set Obj.get].
  - rewrite Hn. reflexivity.
  - destruct (String.eqb k' k2) eqn:E; cbn [Obj.get].
    + apply String.eqb_eq in E. subst k2. rewrite Hn. reflexivity.
    + rewrite IH. reflexivity.
Qed.

End ObjFacts.

Lemma sumZ_from {A} (f : A -> Z) l a :
  fold_left (fun acc x => acc + f x) l a = a + sumZ f l.
Proof.
  unfold sumZ. revert a; induction l as [| y l IH]; intros a; cbn [fold_left]; [lia |].
  rewrite IH, (IH (0 + f y)). lia.
Qed.

Lemma sumZ_cons {A} (f : A -> Z) x l : sumZ f (x :: l) = f x + sumZ f l.
Proof. unfold sumZ at 1. cbn [fold_left]. rewrite sumZ_from. lia. Qed.

(** ** The filter of the sales pages *)

(** C3, what the code does: when the selected mode is day, month or year
    and its value is empty, both versions of the sales page show the sales
    of today, not an empty list. *)
Theorem missing_value_shows_today now st :
  mode_value_missing st ->
  SalesPage.filteredSales now st = sold_today now (sellData st)
  /\ ServiceSalesPage.filteredSales now st = sold_today now (sellData st).
Proof.
  destruct st as [sd f di mi yi]. unfold mode_value_missing. cbn [filter selectedDateInput
    selectedMonthInput selectedYearInput sellData].
  intros [[-> ->] | [[-> ->] | [-> ->]]]; split; reflexivity.
Qed.

Lemma missing_value_shows_today_witness :
  SalesPage.filteredSales (noon 2025 3 5) page_month_cleared = [sale_c]
  /\ ServiceSalesPage.filteredSales (noon 2025 3 5) page_month_cleared = [sale_c].
Proof.
  destruct (missing_value_shows_today (noon 2025 3 5) page_month_cleared) as [H1 H2].
  - right; left. split; reflexivity.
  - rewrite H1, H2. split; reflexivity.
Defined.

(** ** The rollups per product *)

Lemma of_product_cons k s l :
  of_product k (s :: l)
  = if String.eqb k (sr_productId s) then s :: of_product k l else of_product k l.
Proof. unfold of_product. cbn [List.filter]. rewrite String.eqb_sym. reflexivity. Qed.


Lemma legacy_count_step acc s k :
  reported_quantity (ServiceSalesPage.count_sale acc s) k
  = reported_quantity acc k + (if String.eqb k (sr_productId s) then 1 else 0).
Proof.
  unfold reported_quantity, ServiceSalesPage.count_sale.
  destruct (String.eqb k (sr_productId s)) eqn:E.
  - apply String.eqb_eq in E. subst k.
    destruct (Obj.get (sr_productId s) acc); rewrite get_set_same; reflexivity.
  - apply String.eqb_neq in E.
    destruct (Obj.get (sr_productId s) acc); rewrite get_set_other by exact E; lia.
Qed.

Lemma legacy_count_fold sales acc k :
  reported_quantity (fold_left ServiceSalesPage.count_sale sales acc) k
  = reported_quantity acc k + Z.of_nat (List.length (of_product k sales)).
Proof.
  revert acc; induction sales as [| s l IH]; intros acc; cbn [fold_left].
  - cbn. lia.
  - rewrite IH, legacy_count_step, of_product_cons.
    destruct (String.eqb k (sr_productId s)); cbn [List.length]; lia.
Qed.

Lemma page_count_step acc s k :
  reported_quantity (SalesPage.count_sale acc s) k
  = reported_quantity acc k + (if String.eqb k (sr_productId s) then quantity_or_one s else 0).
Proof.
  unfold reported_quantity, SalesPage.count_sale. fold (quantity_or_one s).
  destruct (String.eqb k (sr_productId s)) eqn:E.
  - apply String.eqb_eq in E. subst k.
    destruct (Obj.get (sr_productId s) acc); rewrite get_set_same; reflexivity.
  - apply String.eqb_neq in E.
    destruct (Obj.get (sr_productId s) acc); rewrite get_set_other by exact E; lia.
Qed.

(** The second version of the sales page reports, per product, the sum of
    [quantity || 1] over its records. *)
Lemma page_count_fold sales acc k :
  reported_quantity (fold_left SalesPage.count_sale sales acc) k
  = reported_quantity acc k + sumZ quantity_or_one (of_product k sales).
Proof.
  revert acc; induction sales as [| s l IH]; intros acc; cbn [fold_left].
  - cbn. lia.
  - rewrite IH, page_count_step, of_product_cons.
    destruct (String.eqb k (sr_productId s)); rewrite ?sumZ_cons; lia.
Qed.



(** C5, what the code does: [ServiceSalesPage.tsx] reports, per product,
    the number of its records; for one sale of three units it reports 1,
    where the other two rollups report 3. *)
Theorem sales_page_counts_records :
  (forall sales k,
     reported_quantity (fold_left ServiceSalesPage.count_sale sales []) k
     = Z.of_nat (List.length (of_product k sales)))
  /\ ServiceSalesPage.productQuantities [sale_a] = [mkProductQuantity "Visa Service" 1]
  /\ sumZ sr_quantity (of_product "p1" [sale_a]) = 3
  /\ SalesPage.productQuantities [sale_a] = [mkProductQuantity "Visa Service" 3]
  /\ map totalQuantity (aggregatedProductSales [sale_a]) = [3].
Proof.
  split; [| repeat split].
  intros sales k. rewrite legacy_count_fold. reflexivity.
Qed.

(* ================================================================== *)
(** * The claims about the dashboard *)
(* ================================================================== *)







(** ** The monthly chart *)

Lemma filter_filter {A} (p q : A -> bool) l :
  List.filter p (List.filter q l) = List.filter (fun x => q x && p x) l.
Proof.
  induction l as [| x l IH]; cbn [List.filter]; [reflexivity |].
  destruct (q x); cbn [List.filter andb]; rewrite IH; reflexivity.
Qed.

Lemma is_All_eq s : is_All s = true -> s = "All".
Proof. apply String.eqb_eq. Qed.

(** With no filter set, every record passes. *)
Lemma no_filter_keeps_all now fs sells :
  isFilterActive fs = false -> filteredSells now fs sells = sells.
Proof.
  unfold isFilterActive. intros H.
  repeat (apply orb_false_elim in H as [H ?]).
  destruct fs as [m y d w s e]. cbn [filteredMonth filteredYear filteredDay filteredWeek
    startDate endDate] in *.
  destruct s; [discriminate |]. destruct e; [discriminate |].
  repeat match goal with
         | K : negb (is_All ?x) = false |- _ =>
             apply negb_false_iff, is_All_eq in K; subst x
         end.
  unfold filteredSells. induction sells as [| r l IH]; [reflexivity |].
  cbn [List.filter]. rewrite IH. reflexivity.
Qed.

(** C4 (amended). The monthly series has twelve buckets, one per calendar
    month; bucket [i] holds the cash revenue and the online revenue of the
    records that pass the active filter and were sold in month [i] of any
    year; with no filter set, these are all the records. *)
Theorem chart_follows_the_filter now fs sells :
  List.length (chartData (filteredSells now fs sells)) = 12%nat
  /\ (forall i, (i < 12)%nat ->
        exists bucket,
          nth_error (chartData (filteredSells now fs sells)) i = Some bucket
          /\ cd_month bucket = String.substring 0 3 (nth i MONTHS "")
          /\ Cash bucket
             = sumQ sr_finalPriceCharged (month_sales is_cash i (filteredSells now fs sells))
          /\ Online bucket
             = sumQ sr_finalPriceCharged (month_sales is_online i (filteredSells now fs sells)))
  /\ (isFilterActive fs = false -> filteredSells now fs sells = sells).
Proof.
  split; [reflexivity |]. split; [| apply no_filter_keeps_all].
  intros i Hi. generalize (filteredSells now fs sells) as shown. intros shown.
  do 12 (destruct i as [| i];
         [eexists; split; [reflexivity |];
          cbn [cd_month Cash Online]; rewrite !filter_filter; repeat split |]).
  lia.
Qed.

Lemma chart_follows_the_filter_witness :
  (exists bucket,
     nth_error (chartData (filteredSells (noon 2025 3 5) no_filters sample_sells)) 0
     = Some bucket
     /\ cd_month bucket = String.substring 0 3 (nth 0 MONTHS "")
     /\ Cash bucket
        = sumQ sr_finalPriceCharged
            (month_sales is_cash 0 (filteredSells (noon 2025 3 5) no_filters sample_sells))
     /\ Online bucket
        = sumQ sr_finalPriceCharged
            (month_sales is_online 0 (filteredSells (noon 2025 3 5) no_filters sample_sells)))
  /\ filteredSells (noon 2025 3 5) no_filters sample_sells = sample_sells.
Proof.
  destruct (chart_follows_the_filter (noon 2025 3 5) no_filters sample_sells) as (_ & B & F).
  split; [apply (B 0%nat); lia | apply F; reflexivity].
Defined.

(** C4, the claim as stated fails: with the year filter set to 2025, the
    January bucket holds the 50 of January 2025, while the January cash
    revenue of the full record set is 150. *)
Lemma chart_full_set_counterexample :
  isFilterActive (onYearChange "2025" no_filters) = true
  /\ filteredSells (noon 2025 3 5) (onYearChange "2025" no_filters) sample_sells
     = [sale_b; sale_c]
  /\ option_map Cash
       (nth_error
          (chartData (filteredSells (noon 2025 3 5) (onYearChange "2025" no_filters)
                        sample_sells)) 0)
     = Some (inject_Z 50)
  /\ sumQ sr_finalPriceCharged (month_sales is_cash 0 sample_sells) = inject_Z 150
  /\ ~ (inject_Z 50 == inject_Z 150)%Q.
Proof. repeat split; try (vm_compute; reflexivity). vm_compute; discriminate. Qed.

(** ** The filter controls *)

Lemma page_initial_exclusive : page_exclusive page_initial.
Proof. repeat split. Qed.




(* ================================================================== *)
(** * Further properties of the sale entry form *)
(* ================================================================== *)

(** One event whose effect leaves the discount input alone: the state
    after the render is one run of the effect on the handler's state. *)
Lemma dispatch_is_effect ev st :
  settled st -> enabled ev st ->
  discountInput (price_effect (handle ev st)) = discountInput (handle ev st) ->
  dispatch ev st = price_effect (handle ev st).
Proof.
  intros Hs He Hd. pose proof (dispatch_settled ev st Hs He) as S.
  unfold dispatch, rerender in *.
  destruct (deps_eqb st (handle ev st)).
  - symmetry. exact S.
  - apply settled_run_effects, price_effect_settles, Hd.
Qed.

Lemma effect_result_no_discount up q u :
  parseFloat up = Some u -> (0 <= u)%Q -> 1 <= q ->
  effect_result true up q ""
  = (num (u * inject_Z q), "", toFixed2 (num (u * inject_Z q))).
Proof.
  intros Hu Hp Hq. unfold effect_result.
  rewrite (parseFloat_nonempty _ _ Hu), Hu.
  change (parseFloat "") with (@None Q). cbn [andb mul sub num lt or_zero].
  assert (Hz : (0 <= inject_Z q)%Q) by (unfold Qle; simpl; lia).
  assert (E : Qltb (u * inject_Z q - 0) 0 = false).
  { apply Qltb_ge. pose proof (Qmult_le_0_compat _ _ Hp Hz). lra. }
  rewrite E. f_equal. apply toFixed2_comp. ring.
Qed.

Lemma toFixed2_round2 q : (0 <= q)%Q -> toFixed2 (num (round2 q)) = toFixed2 (num q).
Proof.
  intros H. unfold toFixed2, num, round2.
  assert (E : Qltb q 0 = false) by (apply Qltb_ge; exact H). rewrite E.
  assert (E' : Qltb (round_hundredths q # 100) 0 = false).
  { apply Qltb_ge. pose proof (round_hundredths_nonneg q H). unfold Qle; simpl; lia. }
  rewrite E', round_hundredths_cents. reflexivity.
Qed.

Lemma price_effect_fields st has :
  has_product st = has ->
  let '(t, d, f) := effect_result has (unitPrice st) (quantity st) (discountInput st) in
  totalPriceCalculated (price_effect st) = t
  /\ discountInput (price_effect st) = d
  /\ finalPriceCharged (price_effect st) = f.
Proof.
  intros <-. pose proof (price_effect_view st) as V.
  destruct (effect_result _ _ _ _) as [[t d] f].
  unfold effect_view in V. injection V as _ _ _ V4 V5 V6. auto.
Qed.

(** X1. The effect on the price fields never loops: from every state two
    rounds reach a state it leaves unchanged, more rounds change nothing,
    and every reachable state of the form is such a fixed point. *)
Theorem price_effect_converges :
  (forall st, price_effect (run_effects 2 st) = run_effects 2 st)
  /\ (forall st k, run_effects (2 + k) st = run_effects 2 st)
  /\ (forall st, reachable st -> price_effect st = st).
Proof.
  split; [| split].
  - intros st. apply run_effects_settled.
  - intros st k. apply run_effects_stable.
  - intros st Hr. apply (reachable_inv st Hr).
Qed.

Lemma price_effect_converges_witness : price_effect form_two = form_two.
Proof.
  apply (proj2 (proj2 price_effect_converges)).
  unfold form_two, form_selected, form_loaded.
  apply reachable_dispatch; [| vm_compute; discriminate].
  apply reachable_dispatch; [| vm_compute; auto].
  apply reachable_dispatch; [| exact I].
  apply reachable_dispatch; [| exact I].
  apply reachable_initial.
Defined.

(** X2. Clicking a suggestion whose price is a non-negative number fills
    the draft: the product is selected, the unit price is its price with
    two decimals, the quantity is 1, the discount is empty, the total is the
    unit price and the final price shown is the unit price; the search box
    shows the product name, the suggestions close and the message is
    cleared. *)
Theorem select_product_fills_draft st p pr :
  reachable st -> enabled (SelectProduct p) st ->
  price p = Some pr -> (0 <= pr)%Q ->
  selectedProduct (dispatch (SelectProduct p) st) = Some p
  /\ unitPrice (dispatch (SelectProduct p) st) = toFixed2 (num pr)
  /\ quantity (dispatch (SelectProduct p) st) = 1
  /\ discountInput (dispatch (SelectProduct p) st) = ""
  /\ finalPriceCharged (dispatch (SelectProduct p) st) = toFixed2 (num pr)
  /\ (exists t, totalPriceCalculated (dispatch (SelectProduct p) st) = Some t
                /\ (t == round2 pr)%Q)
  /\ searchTerm (dispatch (SelectProduct p) st) = name p
  /\ showSuggestions (dispatch (SelectProduct p) st) = false
  /\ message (dispatch (SelectProduct p) st) = None.
Proof.
  intros Hr He Hp Hpos. destruct (reachable_inv _ Hr) as (Hs & _).
  assert (R : effect_result true (toFixed2 (num pr)) 1 ""
              = (num (round2 pr * inject_Z 1), "",
                 toFixed2 (num (round2 pr * inject_Z 1)))).
  { apply effect_result_no_discount;
      [apply parseFloat_toFixed2 | apply round2_nonneg, Hpos | lia]. }
  unfold num in *.
  assert (D : dispatch (SelectProduct p) st = price_effect (handleSelectProduct p st)).
  { apply (dispatch_is_effect (SelectProduct p) st Hs He). cbn [handle].
    pose proof (price_effect_fields (handleSelectProduct p st) true eq_refl) as F.
    unfold handleSelectProduct in F at 1 2 3. form_simpl. rewrite Hp, R in F.
    destruct F as (_ & F & _). rewrite F. reflexivity. }
  rewrite D, price_effect_eq. unfold handleSelectProduct. form_simpl. rewrite Hp, R.
  form_simpl. repeat split.
  - pose proof (toFixed2_round2 pr Hpos) as T. unfold num in T. rewrite <- T.
    apply toFixed2_comp. ring.
  - eexists. split; [reflexivity | ring].
Qed.

Lemma select_product_fills_draft_witness :
  selectedProduct (dispatch (SelectProduct visa) form_loaded) = Some visa
  /\ unitPrice (dispatch (SelectProduct visa) form_loaded) = toFixed2 (num 500)
  /\ quantity (dispatch (SelectProduct visa) form_loaded) = 1
  /\ discountInput (dispatch (SelectProduct visa) form_loaded) = ""
  /\ finalPriceCharged (dispatch (SelectProduct visa) form_loaded) = toFixed2 (num 500)
  /\ (exists t, totalPriceCalculated (dispatch (SelectProduct visa) form_loaded) = Some t
                /\ (t == round2 500)%Q)
  /\ searchTerm (dispatch (SelectProduct visa) form_loaded) = name visa
  /\ showSuggestions (dispatch (SelectProduct visa) form_loaded) = false
  /\ message (dispatch (SelectProduct visa) form_loaded) = None.
Proof.
  apply (select_product_fills_draft form_loaded visa 500).
  - unfold form_loaded.
    apply reachable_dispatch; [| exact I].
    apply reachable_dispatch; [| exact I].
    apply reachable_initial.
  - vm_compute; auto.
  - reflexivity.
  - vm_compute; discriminate.
Defined.

(** X3. Changing the quantity of a draft with a non-negative unit price
    clears the discount and recomputes the draft: the total is unit price x
    new quantity, and the final price shown is that total. *)
Theorem quantity_change_resets_discount st p u value :
  reachable st -> selectedProduct st = Some p ->
  parseFloat (unitPrice st) = Some u -> (0 <= u)%Q ->
  discountInput (dispatch (QuantityChange value) st) = ""
  /\ totalPriceCalculated (dispatch (QuantityChange value) st)
     = num (u * inject_Z (quantity (dispatch (QuantityChange value) st)))
  /\ finalPriceCharged (dispatch (QuantityChange value) st)
     = toFixed2 (num (u * inject_Z (quantity (dispatch (QuantityChange value) st))))
  /\ unitPrice (dispatch (QuantityChange value) st) = unitPrice st
  /\ selectedProduct (dispatch (QuantityChange value) st) = Some p.
Proof.
  intros Hr Hp Hu Hpos. destruct (reachable_inv _ Hr) as (Hs & _).
  set (n := Z.max 1 (match parseInt value with Some v => v | None => 1 end)).
  assert (R : effect_result true (unitPrice st) n ""
              = (num (u * inject_Z n), "", toFixed2 (num (u * inject_Z n))))
    by (apply effect_result_no_discount; [exact Hu | exact Hpos | lia]).
  assert (He : enabled (QuantityChange value) st) by (cbn; congruence).
  assert (Hh : has_product (handleQuantityChange value st) = true)
    by (unfold handleQuantityChange, has_product; form_simpl; rewrite Hp; reflexivity).
  assert (D : dispatch (QuantityChange value) st
              = price_effect (handleQuantityChange value st)).
  { apply (dispatch_is_effect (QuantityChange value) st Hs He). cbn [handle].
    pose proof (price_effect_fields (handleQuantityChange value st) true Hh) as F.
    unfold handleQuantityChange in F at 1 2 3. form_simpl. fold n in F.
    rewrite R in F. destruct F as (_ & F' & _). rewrite F'. reflexivity. }
  rewrite D, price_effect_eq, Hh. unfold handleQuantityChange. form_simpl. fold n.
  rewrite R. form_simpl. repeat split. exact Hp.
Qed.

Lemma quantity_change_resets_discount_witness :
  discountInput (dispatch (QuantityChange "3") form_tiny_discount) = ""
  /\ totalPriceCalculated (dispatch (QuantityChange "3") form_tiny_discount)
     = num ((50000 # 100)
            * inject_Z (quantity (dispatch (QuantityChange "3") form_tiny_discount)))
  /\ finalPriceCharged (dispatch (QuantityChange "3") form_tiny_discount)
     = toFixed2 (num ((50000 # 100)
                      * inject_Z (quantity (dispatch (QuantityChange "3") form_tiny_discount))))
  /\ unitPrice (dispatch (QuantityChange "3") form_tiny_discount)
     = unitPrice form_tiny_discount
  /\ selectedProduct (dispatch (QuantityChange "3") form_tiny_discount) = Some visa.
Proof.
  apply (quantity_change_resets_discount form_tiny_discount visa (50000 # 100) "3").
  - apply form_tiny_discount_reachable.
  - vm_compute; reflexivity.
  - vm_compute; reflexivity.
  - vm_compute; discriminate.
Defined.





(** X5. [handleSell] posts an invoice only after a write that succeeded,
    only to a phone number that is not blank, and then to the trimmed
    number with the record it wrote; after a successful write the message
    shown is the success message, whether or not the invoice went out. *)
Theorem invoice_follows_successful_write env st :
  (forall number data,
     In (number, data) (invoices (handleSell env st)) ->
     write_ok env = true
     /\ writes (handleSell env st) = [data]
     /\ number = trim (phoneNumber st)
     /\ nonempty number = true)
  /\ (write_ok env = true -> writes (handleSell env st) <> [] ->
      (nonempty (trim (phoneNumber st)) = true ->
       exists data,
         writes (handleSell env st) = [data]
         /\ invoices (handleSell env st) = [(trim (phoneNumber st), data)])
      /\ (nonempty (trim (phoneNumber st)) = false -> invoices (handleSell env st) = [])
      /\ message (after (handleSell env st)) = Some sold_msg).
Proof.
  unfold handleSell. destruct (selectedProduct st) as [p |].
  2: { cbn [invoices writes]. split; [intros ? ? [] | intros _ H; contradiction]. }
  destruct (isNaN _ || lt _ _).
  { cbn [invoices writes]. split; [intros ? ? [] | intros _ H; contradiction]. }
  destruct (write_ok env).
  2: { cbn [invoices writes]. split; [intros ? ? [] | intros H; discriminate]. }
  cbn [invoices writes after].
  set (data := makeSellData env p (parseFloat (finalPriceCharged st)) st).
  assert (P : Sale.phoneNumber data
              = if nonempty (trim (phoneNumber st))
                then Some (trim (phoneNumber st)) else None) by reflexivity.
  rewrite P. destruct (nonempty (trim (phoneNumber st))) eqn:E.
  - split.
    + intros number d [[= <- <-] | []]. auto.
    + intros _ _. repeat split; try discriminate. eauto.
  - split.
    + intros ? ? [].
    + intros _ _. repeat split; try discriminate; auto.
Qed.

Lemma invoice_follows_successful_write_witness :
  (nonempty (trim (phoneNumber (dispatch (PhoneChange " 919876543210 ") form_two))) = true ->
   exists data,
     writes (handleSell store_accepts (dispatch (PhoneChange " 919876543210 ") form_two))
     = [data]
     /\ invoices (handleSell store_accepts (dispatch (PhoneChange " 919876543210 ") form_two))
        = [(trim (phoneNumber (dispatch (PhoneChange " 919876543210 ") form_two)), data)])
  /\ (nonempty (trim (phoneNumber (dispatch (PhoneChange " 919876543210 ") form_two))) = false ->
      invoices (handleSell store_accepts (dispatch (PhoneChange " 919876543210 ") form_two))
      = [])
  /\ message (after (handleSell store_accepts
                       (dispatch (PhoneChange " 919876543210 ") form_two)))
     = Some sold_msg.
Proof.
  apply (proj2 (invoice_follows_successful_write store_accepts
                  (dispatch (PhoneChange " 919876543210 ") form_two))).
  - reflexivity.
  - vm_compute; discriminate.
Defined.

(** ** Searching the catalogue *)

Lemma prefix_refl s : String.prefix s s = true.
Proof.
  induction s as [| c s IH]; cbn [String.prefix]; [reflexivity |].
  destruct (ascii_dec c c); [exact IH | congruence].
Qed.

Lemma includes_refl s : includes s s = true.
Proof. destruct s; cbn [includes]; rewrite ?prefix_refl; reflexivity. Qed.

Lemma lower_char_idem c : lower_char (lower_char c) = lower_char c.
Proof. destruct c as [[] [] [] [] [] [] [] []]; reflexivity. Qed.

Lemma lower_char_space c : is_space (lower_char c) = is_space c.
Proof. destruct c as [[] [] [] [] [] [] [] []]; reflexivity. Qed.

Lemma toLowerCase_idem s : toLowerCase (toLowerCase s) = toLowerCase s.
Proof.
  induction s as [| c s IH]; cbn [toLowerCase]; [reflexivity |].
  rewrite lower_char_idem, IH. reflexivity.
Qed.

Lemma skip_ws_lower s : skip_ws (toLowerCase s) = toLowerCase (skip_ws s).
Proof.
  induction s as [| c s IH]; cbn [toLowerCase skip_ws]; [reflexivity |].
  rewrite lower_char_space. destruct (is_space c); [exact IH | reflexivity].
Qed.

Lemma rev_string_lower acc s :
  rev_string (toLowerCase acc) (toLowerCase s) = toLowerCase (rev_string acc s).
Proof.
  revert acc; induction s as [| c s IH]; intros acc; cbn [toLowerCase rev_string];
    [reflexivity |].
  apply (IH (String c acc)).
Qed.

Lemma rev_string_lower_nil s :
  rev_string "" (toLowerCase s) = toLowerCase (rev_string "" s).
Proof. exact (rev_string_lower "" s). Qed.

Lemma trim_lower s : trim (toLowerCase s) = toLowerCase (trim s).
Proof.
  unfold trim.
  rewrite skip_ws_lower, rev_string_lower_nil, skip_ws_lower, rev_string_lower_nil.
  reflexivity.
Qed.

Lemma toLowerCase_empty s : String.eqb (toLowerCase s) "" = String.eqb s "".
Proof. destruct s; reflexivity. Qed.

(** X6. The search box: a blank term gives no suggestion and hides the
    list; otherwise the suggestions are exactly the catalogue products
    whose name contains the term, letter case ignored; a product is found
    by its own name; and searching changes nothing in the draft. *)
Theorem search_lists_matching_products st value :
  (trim value = "" ->
   filteredProducts (handleSearchChange value st) = []
   /\ showSuggestions (handleSearchChange value st) = false)
  /\ (forall p,
        In p (filteredProducts (handleSearchChange value st))
        <-> trim value <> "" /\ In p (products st)
            /\ includes (toLowerCase (name p)) (toLowerCase value) = true)
  /\ filteredProducts (handleSearchChange (toLowerCase value) st)
     = filteredProducts (handleSearchChange value st)
  /\ (forall p, In p (products st) -> trim (name p) <> "" ->
        In p (filteredProducts (handleSearchChange (name p) st)))
  /\ form_fields (dispatch (SearchChange value) st)
     = (selectedProduct st, unitPrice st, quantity st, discountInput st,
        finalPriceCharged st, phoneNumber st, paymentMethod st, value).
Proof.
  assert (F : forall v,
             filteredProducts (handleSearchChange v st)
             = if String.eqb (trim v) "" then []
               else List.filter
                      (fun product => includes (toLowerCase (name product)) (toLowerCase v))
                      (products st)).
  { intros v. unfold handleSearchChange. destruct (String.eqb (trim v) ""); reflexivity. }
  repeat split.
  - rewrite F, H, String.eqb_refl. reflexivity.
  - unfold handleSearchChange. rewrite H, String.eqb_refl. reflexivity.
  - rewrite F in H. destruct (String.eqb_spec (trim value) ""); [destruct H | assumption].
  - rewrite F in H. destruct (String.eqb (trim value) ""); [destruct H |].
    apply filter_In in H. apply H.
  - rewrite F in H. destruct (String.eqb (trim value) ""); [destruct H |].
    apply filter_In in H. apply H.
  - intros (Hv & Hin & Hm). rewrite F.
    destruct (String.eqb_spec (trim value) ""); [contradiction |].
    apply filter_In. auto.
  - rewrite !F, trim_lower, toLowerCase_empty, toLowerCase_idem. reflexivity.
  - intros p Hin Hn. rewrite F.
    destruct (String.eqb_spec (trim (name p)) ""); [contradiction |].
    apply filter_In. split; [exact Hin | apply includes_refl].
  - unfold dispatch. cbn [handle].
    destruct (handleSearchChange_view value st) as [V S].
    rewrite (rerender_fields_same _ _ V S).
    unfold handleSearchChange. destruct (String.eqb (trim value) ""); reflexivity.
Qed.

Lemma search_lists_matching_products_witness :
  In visa (filteredProducts (handleSearchChange (name visa)
                               (dispatch (CatalogLoaded [visa]) initial))).
Proof.
  destruct (search_lists_matching_products (dispatch (CatalogLoaded [visa]) initial) "")
    as (_ & _ & _ & H & _).
  apply H; [left; reflexivity | vm_compute; discriminate].
Defined.

(** ** Formatting money *)

Lemma append_nonempty a c b : nonempty (a ++ String c b) = true.
Proof. destruct a; reflexivity. Qed.

Lemma toFixed2_nonempty x : nonempty (toFixed2 x) = true.
Proof.
  unfold toFixed2. destruct x as [q |]; [| reflexivity].
  destruct (Qltb q 0); [reflexivity |].
  unfold fixed2_digits. apply append_nonempty.
Qed.

(** X7. [formatCurrency] keeps an amount of whole hundredths: parsing the
    formatted text gives the amount back; and formatting is stable:
    formatting what was parsed from a formatted non-negative amount gives
    the same text. *)
Theorem money_format_round_trip :
  (forall q, is_cents q ->
     exists q', parseFloat (formatCurrency (num q)) = Some q' /\ (q' == q)%Q)
  /\ (forall q, (0 <= q)%Q ->
        formatCurrency (parseFloat (formatCurrency (num q))) = formatCurrency (num q)).
Proof.
  unfold formatCurrency. split.
  - intros q Hc. exists (round2 q). split; [apply parseFloat_toFixed2 | apply round2_cents, Hc].
  - intros q Hq. unfold num. rewrite parseFloat_toFixed2. apply (toFixed2_round2 q Hq).
Qed.

Lemma money_format_round_trip_witness :
  (exists q', parseFloat (formatCurrency (num (74950 # 100))) = Some q'
              /\ (q' == 74950 # 100)%Q)
  /\ formatCurrency (parseFloat (formatCurrency (num (99999 # 1000))))
     = formatCurrency (num (99999 # 1000)).
Proof.
  split.
  - apply (proj1 money_format_round_trip). exists 74950. reflexivity.
  - apply (proj2 money_format_round_trip). vm_compute; discriminate.
Defined.

(** ** The draft between two events *)

Lemma reachable_no_product_quantity st :
  reachable st -> selectedProduct st = None -> quantity st = 1.
Proof.
  induction 1 as [| st ev Hr IH He]; [reflexivity |].
  unfold dispatch.
  destruct (rerender_keeps st (handle ev st)) as (K1 & _ & K3 & _).
  rewrite K1, K3. clear K1 K3.
  destruct ev; cbn [handle enabled] in *.
  - exact IH.
  - destruct (handleSearchChange_view value st) as [V S]. rewrite S.
    unfold effect_view in V. injection V as _ _ V3 _ _ _. rewrite V3. exact IH.
  - exact IH.
  - discriminate.
  - unfold handleQuantityChange. form_simpl. intros H. contradiction.
  - destruct (handleDiscountChange_keeps value st) as (D1 & _ & D3 & _).
    rewrite D1, D3. exact IH.
  - exact IH.
  - exact IH.
  - destruct (handleSell_cases env st) as [(V & S & _) | (p & _ & _ & _ & F & _)].
    + rewrite S. unfold effect_view in V. injection V as _ _ V3 _ _ _. rewrite V3. exact IH.
    + unfold form_fields in F. injection F as _ _ F3 _ _ _ _ _. intros _. exact F3.
Qed.

(** X8. Between two events the draft is consistent.  With no product
    selected the unit price, the discount and the final price are empty, the
    quantity is 1 and the total is 0; with a product selected the unit price
    is its price with two decimals, the total is unit price x quantity and
    the final price is filled. *)
Theorem draft_is_consistent st :
  reachable st ->
  (selectedProduct st = None ->
   unitPrice st = "" /\ quantity st = 1 /\ totalPriceCalculated st = num 0
   /\ discountInput st = "" /\ finalPriceCharged st = "")
  /\ (forall p, selectedProduct st = Some p ->
        unitPrice st = toFixed2 (price p)
        /\ totalPriceCalculated st
           = mul (parseFloat (unitPrice st)) (num (inject_Z (quantity st)))
        /\ nonempty (finalPriceCharged st) = true).
Proof.
  intros Hr. destruct (reachable_inv _ Hr) as (Hs & _ & Hu & Hn).
  apply settled_iff in Hs. unfold has_product, effect_result in Hs. split.
  - intros Hp. rewrite Hp in Hs. cbn [andb] in Hs. injection Hs as H1 H2 H3.
    repeat split; auto. apply (reachable_no_product_quantity st Hr Hp).
  - intros p Hp. rewrite Hp, (Hu p Hp), toFixed2_nonempty in Hs. cbn [andb] in Hs.
    rewrite (Hu p Hp).
    destruct (lt _ _); apply (f_equal (fun x => (fst (fst x), snd x))) in Hs;
      cbn [fst snd] in Hs; injection Hs as H1 H3; rewrite <- H1, <- H3;
      repeat split; apply toFixed2_nonempty.
Qed.

Lemma draft_is_consistent_witness :
  (selectedProduct form_two = None ->
   unitPrice form_two = "" /\ quantity form_two = 1
   /\ totalPriceCalculated form_two = num 0
   /\ discountInput form_two = "" /\ finalPriceCharged form_two = "")
  /\ (forall p, selectedProduct form_two = Some p ->
        unitPrice form_two = toFixed2 (price p)
        /\ totalPriceCalculated form_two
           = mul (parseFloat (unitPrice form_two)) (num (inject_Z (quantity form_two)))
        /\ nonempty (finalPriceCharged form_two) = true).
Proof.
  apply (draft_is_consistent form_two). apply form_two_reachable.
Defined.

(* ================================================================== *)
(** * Further properties of the sales pages *)
(* ================================================================== *)

(** X9. The two versions of the sales page filter alike: the guard the
    second version adds never changes the result.  In mode [all] every
    record is shown, and no mode shows a record that is not in the feed. *)
Theorem sales_page_versions_agree now st :
  SalesPage.filteredSales now st = ServiceSalesPage.filteredSales now st
  /\ (filter st = all -> SalesPage.filteredSales now st = sellData st)
  /\ (forall r, In r (SalesPage.filteredSales now st) -> In r (sellData st)).
Proof.
  assert (A : SalesPage.filteredSales now st = ServiceSalesPage.filteredSales now st).
  { destruct st as [sd f di mi yi].
    unfold SalesPage.filteredSales, ServiceSalesPage.filteredSales.
    cbn [filter selectedDateInput selectedMonthInput selectedYearInput sellData].
    destruct f, di, mi, yi; reflexivity. }
  split; [exact A |]. rewrite A. split.
  - intros Hf. unfold ServiceSalesPage.filteredSales. rewrite Hf. reflexivity.
  - intros r. unfold ServiceSalesPage.filteredSales.
    repeat match goal with
           | |- context [if ?b then _ else _] => destruct b
           end;
      try (intros H; apply filter_In in H; apply H); auto.
Qed.

Lemma sales_page_versions_agree_witness :
  SalesPage.filteredSales (noon 2025 3 5) (PageHandlers.handleFilterChange all page_month_cleared)
  = sellData (PageHandlers.handleFilterChange all page_month_cleared).
Proof.
  apply (proj1 (proj2 (sales_page_versions_agree (noon 2025 3 5)
                         (PageHandlers.handleFilterChange all page_month_cleared)))).
  reflexivity.
Defined.

(** ** The quantity list of the second version *)

Lemma insert_desc_perm x l : Permutation (SalesPage.insert_desc x l) (x :: l).
Proof.
  induction l as [| y r IH]; cbn [SalesPage.insert_desc]; [reflexivity |].
  destruct (pq_quantity x <? pq_quantity y); [| reflexivity].
  rewrite IH. apply perm_swap.
Qed.

Lemma sort_desc_perm l : Permutation (SalesPage.sort_desc l) l.
Proof.
  induction l as [| x l IH]; cbn; [reflexivity |].
  rewrite insert_desc_perm. apply perm_skip, IH.
Qed.

Lemma insert_desc_sorted x l :
  StronglySorted more_sold l -> StronglySorted more_sold (SalesPage.insert_desc x l).
Proof.
  induction 1 as [| y r Hs IH Hy]; cbn [SalesPage.insert_desc].
  - repeat constructor.
  - destruct (Z.ltb_spec (pq_quantity x) (pq_quantity y)) as [Hlt | Hge].
    + constructor; [exact IH |].
      apply (Permutation_Forall (Permutation_sym (insert_desc_perm x r))).
      constructor; [unfold more_sold; lia | exact Hy].
    + constructor; [constructor; assumption |].
      constructor; [unfold more_sold; lia |].
      apply (Forall_impl _ (P := more_sold y)); [| exact Hy].
      unfold more_sold; intros; lia.
Qed.

Lemma sumZ_perm {A} (f : A -> Z) l l' : Permutation l l' -> sumZ f l = sumZ f l'.
Proof.
  induction 1 as [| x l l' _ IH | x y l | l1 l2 l3 _ IH1 _ IH2].
  - reflexivity.
  - rewrite !sumZ_cons, IH. reflexivity.
  - rewrite !sumZ_cons. lia.
  - congruence.
Qed.

Lemma sumZ_set {V} (g : V -> Z) k v (m : Obj.t V) :
  sumZ g (Obj.values (Obj.set k v m))
  = sumZ g (Obj.values m) - match Obj.get k m with Some e => g e | None => 0 end + g v.
Proof.
  induction m as [| [k' v'] m IH]; cbn [Obj.set Obj.get].
  - unfold Obj.values. cbn [map snd]. rewrite sumZ_cons. cbn. lia.
  - destruct (String.eqb k k'); unfold Obj.values in *; cbn [map snd].
    + rewrite !sumZ_cons. lia.
    + rewrite !sumZ_cons, IH. lia.
Qed.

Lemma page_units_fold sales acc :
  sumZ pq_quantity (Obj.values (fold_left SalesPage.count_sale sales acc))
  = sumZ pq_quantity (Obj.values acc) + sumZ quantity_or_one sales.
Proof.
  revert acc; induction sales as [| s l IH]; intros acc; cbn [fold_left].
  - cbn. lia.
  - rewrite IH, sumZ_cons. unfold SalesPage.count_sale. fold (quantity_or_one s).
    destruct (Obj.get (sr_productId s) acc) as [e |] eqn:E;
      rewrite sumZ_set, E; cbn [pq_quantity]; lia.
Qed.

Lemma legacy_units_fold sales acc :
  sumZ pq_quantity (Obj.values (fold_left ServiceSalesPage.count_sale sales acc))
  = sumZ pq_quantity (Obj.values acc) + Z.of_nat (List.length sales).
Proof.
  revert acc; induction sales as [| s l IH]; intros acc; cbn [fold_left].
  - cbn. lia.
  - rewrite IH. unfold ServiceSalesPage.count_sale.
    destruct (Obj.get (sr_productId s) acc) as [e |] eqn:E;
      rewrite sumZ_set, E; cbn [pq_quantity List.length]; lia.
Qed.

(** X10. The quantity list of the second sales page holds exactly the
    product groups, the most sold first: every entry has at least the
    quantity of every entry after it. *)
Theorem product_quantities_sorted sales :
  StronglySorted more_sold (SalesPage.productQuantities sales)
  /\ Permutation (SalesPage.productQuantities sales)
                 (Obj.values (SalesPage.productCount sales)).
Proof.
  unfold SalesPage.productQuantities. split; [| apply sort_desc_perm].
  generalize (Obj.values (SalesPage.productCount sales)) as l.
  induction l as [| x l IH]; [constructor |].
  cbn. apply insert_desc_sorted, IH.
Qed.

(** X11. The quantities a sales page lists add up: in the second version to
    the sum of [quantity || 1] over the filtered sales, which is the number
    of items sold when no sale has quantity 0; in
    [ServiceSalesPage.tsx] to the number of filtered sales. *)
Theorem listed_quantities_add_up sales :
  sumZ pq_quantity (SalesPage.productQuantities sales) = sumZ quantity_or_one sales
  /\ (Forall (fun s => sr_quantity s <> 0) sales ->
      sumZ pq_quantity (SalesPage.productQuantities sales) = sumZ sr_quantity sales)
  /\ sumZ pq_quantity (ServiceSalesPage.productQuantities sales)
     = Z.of_nat (List.length sales).
Proof.
  assert (A : sumZ pq_quantity (SalesPage.productQuantities sales)
              = sumZ quantity_or_one sales).
  { unfold SalesPage.productQuantities.
    rewrite (sumZ_perm _ _ _ (sort_desc_perm _)).
    unfold SalesPage.productCount. rewrite page_units_fold. cbn. lia. }
  split; [exact A |]. split.
  - intros H. rewrite A. clear A. induction H as [| s l Hs _ IH]; [reflexivity |].
    rewrite !sumZ_cons, IH. unfold quantity_or_one.
    destruct (Z.eqb_spec (sr_quantity s) 0); [contradiction | reflexivity].
  - unfold ServiceSalesPage.productQuantities. rewrite legacy_units_fold. cbn. lia.
Qed.

Lemma listed_quantities_add_up_witness :
  sumZ pq_quantity (SalesPage.productQuantities sample_sells) = sumZ sr_quantity sample_sells.
Proof.
  apply (proj1 (proj2 (listed_quantities_add_up sample_sells))).
  repeat constructor; discriminate.
Defined.

(* ================================================================== *)
(** * Further properties of the dashboard *)
(* ================================================================== *)








(** ** The groups of the rollup *)

Section ObjKeys.
Context {V : Type}.
Implicit Types (m : Obj.t V) (k : string) (v : V).



Lemma get_in k v m : Obj.get k m = Some v -> In (k, v) m.
Proof.
  induction m as [| [k2 v2] m IH]; cbn [Obj.get]; [discriminate |].
  destruct (String.eqb_spec k k2) as [-> | Hn].
  - intros [= ->]. left; reflexivity.
  - intros H. right. apply IH, H.
Qed.



End ObjKeys.








(** ** The week filter *)

Lemma week_start_value now :
  getStartOfWeek now = (day_number now - getDay now) * ms_per_day.
Proof.
  unfold getStartOfWeek, startOfDay, addDays, day_number at 1.
  rewrite Z.div_add by (unfold ms_per_day; lia). unfold day_number. lia.
Qed.

Lemma day_number_of_start d : day_number (d * ms_per_day) = d.
Proof. unfold day_number. apply Z.div_mul. unfold ms_per_day; lia. Qed.

Lemma day_bounds t : day_number t * ms_per_day <= t < (day_number t + 1) * ms_per_day.
Proof.
  unfold day_number, ms_per_day.
  pose proof (Z.div_mod t 86400000 ltac:(lia)).
  pose proof (Z.mod_pos_bound t 86400000 ltac:(lia)). lia.
Qed.

(** X15. The week filter: the week of "This Week" starts on a Sunday at
    00:00, not after now and less than seven days before it; "This Week"
    keeps the sales from that instant on, and "Last Week" keeps exactly the
    sales of the seven days before it, so no sale is in both. *)
Theorem week_filter_splits_at_sunday now :
  getDay (this_week_start now) = 0
  /\ startOfDay (this_week_start now) = this_week_start now
  /\ this_week_start now <= now < addDays (this_week_start now) 7
  /\ (forall fs sell,
        sell_matches now (onWeekChange "This Week" fs) sell
        = (this_week_start now <=? sr_soldAt sell))
  /\ (forall fs sell,
        sell_matches now (onWeekChange "Last Week" fs) sell
        = (last_week_start now <=? sr_soldAt sell) && (sr_soldAt sell <? this_week_start now))
  /\ last_week_start now = this_week_start now - 7 * ms_per_day.
Proof.
  unfold this_week_start, last_week_start.
  pose proof (week_start_value now) as W.
  pose proof (day_bounds now) as B.
  assert (K : 0 <= getDay now < 7) by (unfold getDay; apply Z.mod_pos_bound; lia).
  repeat apply conj.
  - rewrite W. unfold getDay at 1. rewrite day_number_of_start. unfold getDay.
    Z.div_mod_to_equations. lia.
  - rewrite W. unfold startOfDay. rewrite day_number_of_start. reflexivity.
  - rewrite W. unfold ms_per_day in *. lia.
  - rewrite W. unfold addDays, ms_per_day in *. lia.
  - intros fs sell. reflexivity.
  - intros fs sell. unfold sell_matches, onWeekChange.
    cbn [startDate endDate filteredYear filteredMonth filteredDay filteredWeek].
    change (is_All "All") with true. change (is_All "Last Week") with false.
    cbn [negb]. change (String.eqb "Last Week" "This Week") with false.
    change (String.eqb "Last Week" "Last Week") with true. cbv iota.
    f_equal. rewrite W. unfold endOfDay, startOfDay, addDays.
    replace ((day_number now - getDay now) * ms_per_day + -7 * ms_per_day + 6 * ms_per_day)
      with ((day_number now - getDay now - 1) * ms_per_day) by lia.
    rewrite day_number_of_start.
    destruct (Z.leb_spec (sr_soldAt sell)
                ((day_number now - getDay now - 1) * ms_per_day + ms_per_day - 1));
      destruct (Z.ltb_spec (sr_soldAt sell) ((day_number now - getDay now) * ms_per_day));
      try reflexivity; lia.
  - unfold addDays. lia.
Qed.

(** ** The calendar filters *)

Lemma getMonth_range t : 0 <= getMonth t <= 11.
Proof.
  unfold getMonth. generalize (day_number t) as z. intros z.
  unfold civil_from_days.
  set (z' := z + 719468).
  set (era := z' / 146097).
  set (doe := z' - era * 146097).
  assert (Hdoe : 0 <= doe < 146097).
  { unfold doe, era. pose proof (Z.mod_pos_bound z' 146097 ltac:(lia)) as H.
    rewrite Z.mod_eq in H by lia. lia. }
  clearbody doe. clear z' era.
  set (yoe := (doe - doe / 1460 + doe / 36524 - doe / 146096) / 365).
  set (doy := doe - (365 * yoe + yoe / 4 - yoe / 100)).
  set (mp := (5 * doy + 2) / 153).
  assert (Hmp : 0 <= mp <= 11)
    by (unfold mp, doy, yoe; Z.div_mod_to_equations; lia).
  destruct (mp <? 10) eqn:E; [apply Z.ltb_lt in E | apply Z.ltb_ge in E]; lia.
Qed.

Lemma only_month_matches now m sell :
  is_All m = false ->
  sell_matches now (onMonthChange m no_filters) sell
  = (getMonth (sr_soldAt sell) =? indexOf m MONTHS).
Proof.
  intros H. unfold sell_matches, onMonthChange, no_filters.
  cbn [startDate endDate filteredYear filteredMonth filteredDay filteredWeek].
  change (is_All "All") with true. rewrite H. cbn [negb].
  destruct (getMonth (sr_soldAt sell) =? indexOf m MONTHS); reflexivity.
Qed.

Lemma only_year_matches now y sell :
  is_All y = false ->
  sell_matches now (onYearChange y no_filters) sell
  = equals_parsed (getFullYear (sr_soldAt sell)) y.
Proof.
  intros H. unfold sell_matches, onYearChange, no_filters.
  cbn [startDate endDate filteredYear filteredMonth filteredDay filteredWeek].
  change (is_All "All") with true. rewrite H. cbn [negb].
  destruct (equals_parsed (getFullYear (sr_soldAt sell)) y); reflexivity.
Qed.

Lemma month_and_year_match now m y sell :
  sell_matches now (onYearChange y (onMonthChange m no_filters)) sell
  = sell_matches now (onMonthChange m no_filters) sell
    && sell_matches now (onYearChange y no_filters) sell.
Proof.
  unfold sell_matches, onYearChange, onMonthChange, no_filters.
  cbn [startDate endDate filteredYear filteredMonth filteredDay filteredWeek].
  change (is_All "All") with true. cbn [negb].
  destruct (is_All y), (is_All m); cbn [negb];
    repeat match goal with |- context [if ?b then _ else _] => destruct b end;
    reflexivity.
Qed.

(** X16. The month filter: with the i-th month name selected, exactly the
    records sold in month i (of any year) are kept; with a name that is
    neither [All] nor a month name, nothing is kept; and a year selected
    after a month keeps the records that pass both filters. *)
Theorem month_filter_selects_month now sells :
  (forall i, (i < 12)%nat ->
     filteredSells now (onMonthChange (nth i MONTHS "") no_filters) sells
     = List.filter (fun s => getMonth (sr_soldAt s) =? Z.of_nat i) sells)
  /\ (forall m, is_All m = false -> indexOf m MONTHS = -1 ->
        filteredSells now (onMonthChange m no_filters) sells = [])
  /\ (forall m y,
        filteredSells now (onYearChange y (onMonthChange m no_filters)) sells
        = filteredSells now (onYearChange y no_filters)
            (filteredSells now (onMonthChange m no_filters) sells)).
Proof.
  repeat apply conj.
  - intros i Hi. unfold filteredSells. apply filter_ext. intros s.
    do 12 (destruct i as [| i]; [apply only_month_matches; reflexivity |]). lia.
  - intros m Hm Hi. unfold filteredSells.
    induction sells as [| s l IH]; [reflexivity |].
    cbn [List.filter]. rewrite (only_month_matches now m s Hm), Hi.
    pose proof (getMonth_range (sr_soldAt s)).
    destruct (Z.eqb_spec (getMonth (sr_soldAt s)) (-1)); [lia | exact IH].
  - intros m y. unfold filteredSells. rewrite filter_filter.
    apply filter_ext. intros s. apply month_and_year_match.
Qed.

Lemma month_filter_selects_month_witness :
  filteredSells (noon 2025 3 5) (onMonthChange (nth 2 MONTHS "") no_filters) sample_sells
  = List.filter (fun s => getMonth (sr_soldAt s) =? Z.of_nat 2) sample_sells.
Proof.
  apply (proj1 (month_filter_selects_month (noon 2025 3 5) sample_sells) 2%nat). lia.
Defined.

Lemma filter_idem {A} (p : A -> bool) l : List.filter p (List.filter p l) = List.filter p l.
Proof.
  rewrite filter_filter. apply filter_ext. intros x. destruct (p x); reflexivity.
Qed.

(** X17. Filtering is idempotent and never adds a record: filtering the
    filtered list again, or taking the current view of the current view,
    changes nothing, and every record shown is a record of the feed. *)
Theorem filtering_is_idempotent now fs sells :
  filteredSells now fs (filteredSells now fs sells) = filteredSells now fs sells
  /\ currentViewSells now fs (currentViewSells now fs sells) = currentViewSells now fs sells
  /\ (forall r, In r (currentViewSells now fs sells) -> In r sells)
  /\ (List.length (currentViewSells now fs sells) <= List.length sells)%nat.
Proof.
  unfold currentViewSells, filteredSells.
  destruct (isFilterActive fs); repeat apply conj;
    try apply filter_idem; try apply filter_length_le;
    intros r H; apply filter_In in H; apply H.
Qed.

Lemma filtering_is_idempotent_witness :
  In sale_c (currentViewSells (noon 2025 3 5) no_filters sample_sells)
  /\ In sale_c sample_sells.
Proof.
  assert (H : In sale_c (currentViewSells (noon 2025 3 5) no_filters sample_sells)).
  { vm_compute. left. reflexivity. }
  split; [exact H |].
  apply (proj1 (proj2 (proj2 (filtering_is_idempotent (noon 2025 3 5) no_filters
                                sample_sells))) _ H).
Defined.

(** X18. A day filter is never active on its own: in every filter state
    the controls can produce, an active day comes with an active month and
    an active year, and neither the week nor the custom range is set. *)
Theorem day_filter_needs_month_and_year fs :
  FilterControls.filters_reachable fs ->
  is_All (filteredDay fs) = false ->
  is_All (filteredMonth fs) = false /\ is_All (filteredYear fs) = false
  /\ is_All (filteredWeek fs) = true /\ startDate fs = None /\ endDate fs = None.
Proof.
  induction 1 as [| fs a _ IH He]; [discriminate |].
  destruct a; cbn [apply_action onMonthChange onYearChange onDayChange onWeekChange
    onStartDateChange onEndDateChange handleFilterReset no_filters
    filteredMonth filteredYear filteredDay filteredWeek startDate endDate];
    try discriminate.
  cbn [FilterControls.action_enabled] in He. intros _. destruct He. auto.
Qed.

Lemma day_filter_needs_month_and_year_witness :
  is_All (filteredMonth (apply_action (SelectDay "5")
            (apply_action (SelectYear "2025") (apply_action (SelectMonth "March") no_filters))))
  = false
  /\ is_All (filteredYear (apply_action (SelectDay "5")
            (apply_action (SelectYear "2025") (apply_action (SelectMonth "March") no_filters))))
     = false
  /\ is_All (filteredWeek (apply_action (SelectDay "5")
            (apply_action (SelectYear "2025") (apply_action (SelectMonth "March") no_filters))))
     = true
  /\ startDate (apply_action (SelectDay "5")
            (apply_action (SelectYear "2025") (apply_action (SelectMonth "March") no_filters)))
     = None
  /\ endDate (apply_action (SelectDay "5")
            (apply_action (SelectYear "2025") (apply_action (SelectMonth "March") no_filters)))
     = None.
Proof.
  apply day_filter_needs_month_and_year; [| reflexivity].
  apply FilterControls.filters_step; [| split; reflexivity].
  apply FilterControls.filters_step; [| exact I].
  apply FilterControls.filters_step; [| exact I].
  apply FilterControls.filters_initial.
Defined.

(** X19. A custom range with only one end picked filters nothing but
    counts as an active filter: after a start date is picked while no end
    date is set, or an end date while no start date is set, the current
    view is the whole feed, not the sales of today. *)
Theorem half_range_shows_everything now fs d sells :
  (endDate fs = None ->
   isFilterActive (onStartDateChange (Some d) fs) = true
   /\ currentViewSells now (onStartDateChange (Some d) fs) sells = sells)
  /\ (startDate fs = None ->
      isFilterActive (onEndDateChange (Some d) fs) = true
      /\ currentViewSells now (onEndDateChange (Some d) fs) sells = sells).
Proof.
  assert (F : forall p : SellRecord -> bool, (forall s, p s = true) ->
                List.filter p sells = sells).
  { intros p Hp. induction sells as [| s l IH]; [reflexivity |].
    cbn [List.filter]. rewrite Hp, IH. reflexivity. }
  split; intros H;
    unfold currentViewSells, filteredSells, onStartDateChange, onEndDateChange;
    rewrite H; cbn [isFilterActive filteredMonth filteredYear filteredDay filteredWeek
      startDate endDate]; change (is_All "All") with true; cbn [negb orb];
    (split; [reflexivity | apply F; intros s; reflexivity]).
Qed.

Lemma half_range_shows_everything_witness :
  isFilterActive (onStartDateChange (Some (noon 2025 3 1)) no_filters) = true
  /\ currentViewSells (noon 2025 3 5) (onStartDateChange (Some (noon 2025 3 1)) no_filters)
       sample_sells
     = sample_sells.
Proof.
  apply (proj1 (half_range_shows_everything (noon 2025 3 5) no_filters (noon 2025 3 1)
                  sample_sells)).
  reflexivity.
Defined.

(** ** The chart *)





(** ** The report table *)

Import ReportTable.

(** X21. Clicking a column header of a report table: the table is then
    sorted by that column; a column that was not the sort column starts
    with the largest values on top; clicking the same column again flips
    the direction each time, so that three clicks leave the table as one
    click does.  The first click on the column the table opens with sorts
    it ascending. *)
Theorem request_sort_alternates k cfg :
  key (requestSort k cfg) = k
  /\ (key cfg <> k -> direction (requestSort k cfg) = descending)
  /\ direction (requestSort k (requestSort k cfg)) <> direction (requestSort k cfg)
  /\ requestSort k (requestSort k (requestSort k cfg)) = requestSort k cfg
  /\ requestSort k (initialConfig k) = mkSortConfig k ascending.
Proof.
  destruct cfg as [k0 d]. destruct k, k0, d; repeat apply conj;
    try reflexivity; try discriminate; intros H; try reflexivity;
    exfalso; apply H; reflexivity.
Qed.

Lemma request_sort_alternates_witness :
  direction (requestSort byAmount (initialConfig byQuantity)) = descending.
Proof.
  apply (proj1 (proj2 (request_sort_alternates byAmount (initialConfig byQuantity)))).
  discriminate.
Defined.

Lemma in_order_trans cfg a b c : in_order cfg a b -> in_order cfg b c -> in_order cfg a c.
Proof. unfold in_order. destruct (direction cfg); intros; lra. Qed.

Lemma insert_by_perm {A} (cmp : A -> A -> Z) x l : Permutation (insert_by cmp x l) (x :: l).
Proof.
  induction l as [| y r IH]; cbn [insert_by]; [reflexivity |].
  destruct (0 <? cmp x y); [| reflexivity].
  rewrite IH. apply perm_swap.
Qed.

Lemma sort_by_perm {A} (cmp : A -> A -> Z) l : Permutation (sort_by cmp l) l.
Proof.
  induction l as [| x l IH]; cbn; [reflexivity |].
  rewrite insert_by_perm. apply perm_skip, IH.
Qed.

(** What the comparator's sign says about two rows. *)
Lemma compare_after cfg a b :
  (0 <? compare_items cfg a b) = true -> in_order cfg b a /\ ~ (field (key cfg) a == field (key cfg) b)%Q.
Proof.
  unfold compare_items, in_order.
  destruct (Qltb (field (key cfg) a) (field (key cfg) b)) eqn:E1.
  - apply Qltb_lt in E1. destruct (direction cfg); [discriminate |].
    intros _. split; lra.
  - destruct (Qltb (field (key cfg) b) (field (key cfg) a)) eqn:E2; [| discriminate].
    apply Qltb_lt in E2. destruct (direction cfg); [| discriminate].
    intros _. split; lra.
Qed.

Lemma compare_before cfg a b :
  (0 <? compare_items cfg a b) = false -> in_order cfg a b.
Proof.
  unfold compare_items, in_order.
  destruct (Qltb (field (key cfg) a) (field (key cfg) b)) eqn:E1.
  - apply Qltb_lt in E1. destruct (direction cfg); [lra | discriminate].
  - apply Qltb_ge in E1.
    destruct (Qltb (field (key cfg) b) (field (key cfg) a)) eqn:E2.
    + destruct (direction cfg); [discriminate | lra].
    + apply Qltb_ge in E2. destruct (direction cfg); lra.
Qed.

Lemma insert_by_sorted cfg x l :
  StronglySorted (in_order cfg) l ->
  StronglySorted (in_order cfg) (insert_by (compare_items cfg) x l).
Proof.
  induction 1 as [| y r Hs IH Hy]; cbn [insert_by].
  - repeat constructor.
  - destruct (0 <? compare_items cfg x y) eqn:E.
    + apply compare_after in E. destruct E as [E _].
      constructor; [exact IH |].
      apply (Permutation_Forall (Permutation_sym (insert_by_perm _ x r))).
      constructor; [exact E | exact Hy].
    + apply compare_before in E.
      constructor; [constructor; assumption |].
      constructor; [exact E |].
      apply (Forall_impl _ (P := in_order cfg y)); [| exact Hy].
      intros c. apply in_order_trans, E.
Qed.

Lemma insert_by_rows cfg v x l :
  rows_with (key cfg) v (insert_by (compare_items cfg) x l)
  = rows_with (key cfg) v (x :: l).
Proof.
  induction l as [| y r IH]; cbn [insert_by]; [reflexivity |].
  destruct (0 <? compare_items cfg x y) eqn:E; [| reflexivity].
  apply compare_after in E. destruct E as [_ E].
  unfold rows_with in *. cbn [List.filter] in *. rewrite IH.
  destruct (Qeq_bool (field (key cfg) x) v) eqn:Ex; [| reflexivity].
  destruct (Qeq_bool (field (key cfg) y) v) eqn:Ey; [| reflexivity].
  apply Qeq_bool_iff in Ex, Ey. exfalso. apply E. rewrite Ex, Ey. reflexivity.
Qed.

(** X22. The rows a report table shows are the rows it was given, put in
    the order of the sort configuration: each row is in order with every
    row below it, and rows with the same sort value keep the order they
    had (the sort is stable). *)
Theorem sorted_data_is_ordered cfg data :
  Permutation (sortedData cfg data) data
  /\ StronglySorted (in_order cfg) (sortedData cfg data)
  /\ (forall v, rows_with (key cfg) v (sortedData cfg data) = rows_with (key cfg) v data).
Proof.
  unfold sortedData. split; [apply sort_by_perm |]. split.
  - induction data as [| x l IH]; [constructor |].
    cbn. apply insert_by_sorted, IH.
  - intros v. induction data as [| x l IH]; [reflexivity |].
    unfold sort_by in *. cbn [fold_right]. rewrite insert_by_rows.
    unfold rows_with in *. cbn [List.filter]. rewrite IH. reflexivity.
Qed.

(* ================================================================== *)
(** * The calendar: the modes of the sales pages and the day select *)
(* ================================================================== *)

Lemma is_leap_spec y :
  is_leap y = true <-> (y mod 4 = 0 /\ (y mod 100 <> 0 \/ y mod 400 = 0)).
Proof.
  unfold is_leap.
  rewrite orb_true_iff, andb_true_iff, negb_true_iff, !Z.eqb_eq, Z.eqb_neq.
  split.
  - intros [[A B] | C]; [tauto |]. split; [| tauto].
    Z.div_mod_to_equations; lia.
  - intros [A [B | C]]; tauto.
Qed.

(** The year of the era of a day of the era. *)
Lemma year_of_era yoe doy :
  0 <= yoe < 400 -> 0 <= doy ->
  (doy <= 364 \/ (doy = 365 /\ ((yoe + 1) mod 4 = 0 /\ ((yoe + 1) mod 100 <> 0 \/ yoe = 399)))) ->
  let doe := yoe * 365 + yoe / 4 - yoe / 100 + doy in
  0 <= doe < 146097
  /\ (doe - doe / 1460 + doe / 36524 - doe / 146096) / 365 = yoe.
Proof.
  intros Hy Hd Hl doe. subst doe.
  Z.div_mod_to_equations. lia.
Qed.

Lemma era_split e doe : 0 <= doe < 146097 ->
  (e * 146097 + doe) / 146097 = e.
Proof. intros H. Z.div_mod_to_equations. lia. Qed.

(** The civil date of the day number of a civil date. *)
Lemma civil_round_trip y m d :
  1 <= m <= 12 -> 1 <= d <= days_in_month y m ->
  civil_from_days (days_from_civil y m d) = (y, m, d).
Proof.
  intros Hm Hd. unfold days_from_civil.
  set (y' := if m <=? 2 then y - 1 else y).
  set (mp := if 2 <? m then m - 3 else m + 9).
  set (era := y' / 400).
  set (yoe := y' - era * 400).
  set (doy := (153 * mp + 2) / 5 + d - 1).
  assert (Hyoe : 0 <= yoe < 400).
  { unfold yoe, era. pose proof (Z.mod_pos_bound y' 400 ltac:(lia)) as H.
    rewrite Z.mod_eq in H by lia. lia. }
  assert (Hy' : y' = era * 400 + yoe) by (unfold yoe; lia).
  assert (Hmp : 0 <= mp <= 11 /\ m = (if mp <? 10 then mp + 3 else mp - 9)
                /\ y = (if m <=? 2 then y' + 1 else y')).
  { unfold mp, y'. destruct (Z.ltb_spec 2 m), (Z.leb_spec m 2); try lia.
    - destruct (Z.ltb_spec (m - 3) 10); lia.
    - destruct (Z.ltb_spec (m + 9) 10); lia. }
  destruct Hmp as (Hmp & Hm' & Hyy). clearbody mp y'.
  assert (Hleap : mp = 11 -> d = 29 ->
            (yoe + 1) mod 4 = 0 /\ ((yoe + 1) mod 100 <> 0 \/ yoe = 399)).
  { intros E1 E2. subst mp. cbn in Hm'. subst m.
    unfold days_in_month in Hd. cbn [Z.eqb Pos.eqb] in Hd.
    destruct (is_leap y) eqn:L; cbv iota in Hd; [| lia]. apply is_leap_spec in L.
    cbn [Z.leb Z.compare Pos.compare Pos.compare_cont] in Hyy.
    rewrite Hyy, Hy' in L. clear - L Hyoe.
    Z.div_mod_to_equations. lia. }
  assert (Hdoy : 0 <= doy
            /\ (doy <= 364 \/ (doy = 365 /\ ((yoe + 1) mod 4 = 0
                                 /\ ((yoe + 1) mod 100 <> 0 \/ yoe = 399))))
            /\ (5 * doy + 2) / 153 = mp
            /\ doy - (153 * mp + 2) / 5 + 1 = d).
  { assert (Hdm : d <= (if m =? 2 then 29 else
                        if (m =? 4) || (m =? 6) || (m =? 9) || (m =? 11) then 30 else 31)).
    { unfold days_in_month in Hd. destruct (m =? 2); [destruct (is_leap y) |]; lia. }
    assert (Hc : mp = 0 \/ mp = 1 \/ mp = 2 \/ mp = 3 \/ mp = 4 \/ mp = 5 \/ mp = 6
                 \/ mp = 7 \/ mp = 8 \/ mp = 9 \/ mp = 10 \/ mp = 11) by lia.
    unfold doy. clear - Hc Hm' Hdm Hd Hleap.
    repeat (destruct Hc as [Hc | Hc]); subst mp; cbn in Hm'; subst m; cbn in Hdm;
      (split; [Z.div_mod_to_equations; lia
              | split; [| split; Z.div_mod_to_equations; lia]]);
      try (left; Z.div_mod_to_equations; lia).
    destruct (Z.eq_dec d 29) as [E | E];
      [right | left; Z.div_mod_to_equations; lia].
    split; [Z.div_mod_to_equations; lia | apply Hleap; [reflexivity | exact E]]. }
  destruct Hdoy as (Hd0 & Hd1 & Hd2 & Hd3).
  destruct (year_of_era yoe doy Hyoe Hd0 Hd1) as [Hdoe Hyear].
  set (doe := yoe * 365 + yoe / 4 - yoe / 100 + doy) in *.
  unfold civil_from_days.
  replace (era * 146097 + doe - 719468 + 719468) with (era * 146097 + doe) by lia.
  rewrite (era_split era doe Hdoe).
  replace (era * 146097 + doe - era * 146097) with doe by lia.
  rewrite Hyear.
  replace (doe - (365 * yoe + yoe / 4 - yoe / 100)) with doy by (unfold doe; lia).
  rewrite Hd2, Hd3, <- Hm'.
  do 2 f_equal. rewrite Hyy, Hy'. destruct (m <=? 2); lia.
Qed.

Lemma civil_day_range z : let '(_, _, d) := civil_from_days z in 1 <= d <= 31.
Proof.
  unfold civil_from_days.
  set (z' := z + 719468).
  set (era := z' / 146097).
  set (doe := z' - era * 146097).
  assert (Hdoe : 0 <= doe < 146097).
  { unfold doe, era. pose proof (Z.mod_pos_bound z' 146097 ltac:(lia)) as H.
    rewrite Z.mod_eq in H by lia. lia. }
  clearbody doe. clear z' era.
  set (yoe := (doe - doe / 1460 + doe / 36524 - doe / 146096) / 365).
  set (doy := doe - (365 * yoe + yoe / 4 - yoe / 100)).
  set (mp := (5 * doy + 2) / 153).
  unfold mp, doy, yoe. Z.div_mod_to_equations. lia.
Qed.

Lemma days_in_month_bounds y m : 28 <= days_in_month y m <= 31.
Proof.
  unfold days_in_month.
  destruct (m =? 2); [destruct (is_leap y); lia |].
  destruct ((m =? 4) || (m =? 6) || (m =? 9) || (m =? 11)); lia.
Qed.

Lemma civil_of_date y m d :
  1 <= m <= 12 -> 1 <= d <= days_in_month y m ->
  getFullYear (days_from_civil y m d * ms_per_day) = y
  /\ getMonth (days_from_civil y m d * ms_per_day) = m - 1
  /\ getDate (days_from_civil y m d * ms_per_day) = d.
Proof.
  intros Hm Hd. unfold getFullYear, getMonth, getDate.
  rewrite day_number_of_start, (civil_round_trip y m d Hm Hd). auto.
Qed.

Lemma append_assoc (a b c : string) : ((a ++ b) ++ c = a ++ (b ++ c))%string.
Proof. induction a as [| x a IH]; cbn [append]; [reflexivity | rewrite IH; reflexivity]. Qed.

Lemma nonempty_app a b : nonempty b = true -> nonempty (a ++ b) = true.
Proof. destruct a; [auto | reflexivity]. Qed.

(** The month input read as a date. *)
Lemma parseISO_month ys ms :
  all_digits ys = true -> String.length ys = 4%nat ->
  all_digits ms = true -> String.length ms = 2%nat ->
  1 <= digits_value 0 ms <= 12 ->
  parseISO ((ys ++ "-" ++ ms) ++ "-01")
  = Some (days_from_civil (digits_value 0 ys) (digits_value 0 ms) 1 * ms_per_day).
Proof.
  intros Hy Ly Hm Lm Hv. unfold parseISO.
  replace ((ys ++ "-" ++ ms) ++ "-01") with (ys ++ String "-" (ms ++ "-01"))
    by (rewrite append_assoc; reflexivity).
  rewrite (span_digits_app ys (String "-" (ms ++ "-01")) Hy eq_refl).
  cbv beta iota. rewrite (span_digits_app ms "-01" Hm eq_refl).
  cbv beta iota. change (span_digits "01") with ("01", "").
  cbv beta iota. rewrite Ly, Lm.
  change (digits_value 0 "01") with 1.
  pose proof (days_in_month_bounds (digits_value 0 ys) (digits_value 0 ms)).
  destruct (Z.leb_spec 1 (digits_value 0 ms)); [| lia].
  destruct (Z.leb_spec (digits_value 0 ms) 12); [| lia].
  destruct (Z.leb_spec 1 (days_in_month (digits_value 0 ys) (digits_value 0 ms))); [| lia].
  reflexivity.
Qed.

(** X23. Month mode of the sales page: with the month input at
    [YYYY-MM], exactly the sales of month MM of the year YYYY are shown,
    in both versions of the page. *)
Theorem month_mode_selects_month now st ys ms :
  filter st = month ->
  selectedMonthInput st = ys ++ "-" ++ ms ->
  all_digits ys = true -> String.length ys = 4%nat ->
  all_digits ms = true -> String.length ms = 2%nat ->
  1 <= digits_value 0 ms <= 12 ->
  SalesPage.filteredSales now st
  = List.filter (sold_in_month (digits_value 0 ys) (digits_value 0 ms)) (sellData st)
  /\ ServiceSalesPage.filteredSales now st = SalesPage.filteredSales now st.
Proof.
  intros Hf Hi Hy Ly Hm Lm Hv.
  assert (Hn : nonempty (selectedMonthInput st) = true).
  { rewrite Hi. apply nonempty_app. reflexivity. }
  assert (A : ServiceSalesPage.filteredSales now st
              = List.filter (sold_in_month (digits_value 0 ys) (digits_value 0 ms))
                  (sellData st)).
  { unfold ServiceSalesPage.filteredSales. rewrite Hf, Hn. cbn [Filter_eqb andb].
    rewrite Hi, (parseISO_month ys ms Hy Ly Hm Lm Hv).
    apply filter_ext. intros sale. unfold isSameMonth, sold_in_month.
    pose proof (days_in_month_bounds (digits_value 0 ys) (digits_value 0 ms)).
    destruct (civil_of_date (digits_value 0 ys) (digits_value 0 ms) 1 Hv ltac:(lia))
      as (E1 & E2 & _).
    rewrite E1, E2. reflexivity. }
  assert (B : SalesPage.filteredSales now st = ServiceSalesPage.filteredSales now st).
  { unfold SalesPage.filteredSales, ServiceSalesPage.filteredSales.
    rewrite Hf, Hn. reflexivity. }
  rewrite B. split; [exact A | reflexivity].
Qed.

Lemma month_mode_selects_month_witness :
  SalesPage.filteredSales (noon 2025 3 5)
    (PageHandlers.onMonthInput "2025-03" (mkPage sample_sells today "" "" ""))
  = List.filter (sold_in_month 2025 3) sample_sells.
Proof.
  apply (proj1 (month_mode_selects_month (noon 2025 3 5)
                  (PageHandlers.onMonthInput "2025-03" (mkPage sample_sells today "" "" ""))
                  "2025" "03" eq_refl eq_refl eq_refl eq_refl eq_refl eq_refl
                  ltac:(vm_compute; split; discriminate))).
Defined.

(** A run of digits read by [parseInt]. *)
Lemma parseInt_digits s :
  all_digits s = true -> nonempty s = true -> parseInt s = Some (digits_value 0 s).
Proof.
  intros Hd Hn. destruct s as [| c r]; [discriminate |].
  pose proof Hd as Hc. cbn [all_digits] in Hc. apply andb_prop in Hc as [Hc _].
  unfold parseInt. cbn [skip_ws]. rewrite (digit_not_space c Hc), (read_sign_digit c r Hc).
  rewrite (span_digits_all _ Hd). reflexivity.
Qed.

(** X24. Year mode of the sales page: when the year input is a run of
    digits that reads y, exactly the sales of the year y are shown, where
    a y from 0 to 99 means the year 1900 + y; when the input is not empty
    and does not start with a number, nothing is shown.  Both versions of
    the page agree. *)
Theorem year_mode_selects_year now st :
  filter st = year ->
  (all_digits (selectedYearInput st) = true -> nonempty (selectedYearInput st) = true ->
     SalesPage.filteredSales now st
     = List.filter (sold_in_year (date_year (digits_value 0 (selectedYearInput st))))
         (sellData st))
  /\ (nonempty (selectedYearInput st) = true -> parseInt (selectedYearInput st) = None ->
      SalesPage.filteredSales now st = [])
  /\ ServiceSalesPage.filteredSales now st = SalesPage.filteredSales now st.
Proof.
  intros Hf.
  assert (B : SalesPage.filteredSales now st = ServiceSalesPage.filteredSales now st).
  { destruct st as [sd f di mi yi]. cbn [filter] in Hf. subst f.
    unfold SalesPage.filteredSales, ServiceSalesPage.filteredSales.
    cbn [filter selectedDateInput selectedMonthInput selectedYearInput sellData].
    destruct yi; reflexivity. }
  rewrite B. repeat apply conj; [| | reflexivity].
  - intros Hd Hn. unfold ServiceSalesPage.filteredSales.
    rewrite Hf, Hn, (parseInt_digits _ Hd Hn). cbn [Filter_eqb andb newDate_jan1].
    apply filter_ext. intros sale. unfold isSameYear, sold_in_year.
    set (y := digits_value 0 (selectedYearInput st)). fold (date_year y).
    pose proof (days_in_month_bounds (date_year y) 1).
    destruct (civil_of_date (date_year y) 1 1 ltac:(lia) ltac:(lia)) as (E1 & _).
    rewrite E1. reflexivity.
  - intros Hn Hy. unfold ServiceSalesPage.filteredSales.
    rewrite Hf, Hn, Hy. cbn [Filter_eqb andb newDate_jan1 isSameYear].
    induction (sellData st) as [| s l IH]; [reflexivity | exact IH].
Qed.

Lemma year_mode_selects_year_witness :
  SalesPage.filteredSales (noon 2025 3 5)
    (PageHandlers.onYearInput "2025" (mkPage sample_sells today "" "" ""))
  = List.filter (sold_in_year (date_year (digits_value 0 "2025"))) sample_sells.
Proof.
  apply (proj1 (year_mode_selects_year (noon 2025 3 5)
                  (PageHandlers.onYearInput "2025" (mkPage sample_sells today "" "" ""))
                  eq_refl));
    reflexivity.
Defined.

(** ** The day select *)

Import DayOptions.

(** The day before the first of the next month is the last of the month. *)
Lemma last_day_of_month y i :
  0 <= i <= 11 ->
  days_from_civil (y + (i + 1) / 12) ((i + 1) mod 12 + 1) 1 + (0 - 1)
  = days_from_civil y (i + 1) (days_in_month y (i + 1)).
Proof.
  intros Hi.
  assert (Hc : i = 0 \/ i = 1 \/ i = 2 \/ i = 3 \/ i = 4 \/ i = 5 \/ i = 6
               \/ i = 7 \/ i = 8 \/ i = 9 \/ i = 10 \/ i = 11) by lia.
  clear Hi.
  repeat (destruct Hc as [Hc | Hc]); subst i;
    match goal with
    | |- context [(?a + 1) / 12] =>
        let q := eval vm_compute in ((a + 1) / 12) in
        let r := eval vm_compute in ((a + 1) mod 12 + 1) in
        let m := eval vm_compute in (a + 1) in
        change ((a + 1) / 12) with q; change ((a + 1) mod 12 + 1) with r;
        change (a + 1) with m
    end;
    unfold days_from_civil, days_in_month;
    cbn [Z.add Z.eqb Z.leb Z.ltb Z.compare Pos.add Pos.succ Pos.eqb Pos.compare
         Pos.compare_cont orb];
    try (Z.div_mod_to_equations; lia).
  destruct (is_leap y) eqn:L.
  - apply is_leap_spec in L. Z.div_mod_to_equations. lia.
  - assert (N : ~ (y mod 4 = 0 /\ (y mod 100 <> 0 \/ y mod 400 = 0))).
    { intros H. apply is_leap_spec in H. congruence. }
    Z.div_mod_to_equations. lia.
Qed.

Lemma one_to_length n : 0 <= n -> Z.of_nat (List.length (one_to n)) = n.
Proof. intros H. unfold one_to. rewrite length_map, length_seq. lia. Qed.

Lemma one_to_in n d : In d (one_to n) <-> 1 <= d <= n.
Proof.
  unfold one_to. rewrite in_map_iff. split.
  - intros (i & E & Hi). apply in_seq in Hi. lia.
  - intros H. exists (Z.to_nat (d - 1)). split; [lia | apply in_seq; lia].
Qed.

(** X25. The day select offers exactly the days of the selected month:
    with the i-th month name and a year that is a run of digits reading y
    selected, the options are 1, 2, ... up to the number of days of that
    month in the year y (29 for February in a leap year), where a y from 0
    to 99 means 1900 + y; with the month or the year at [All] there is no
    option. *)
Theorem day_options_are_the_days_of_the_month fs :
  (forall i, (i < 12)%nat ->
     filteredMonth fs = nth i MONTHS "" ->
     all_digits (filteredYear fs) = true -> nonempty (filteredYear fs) = true ->
     getDayOptions fs
     = one_to (days_in_month (date_year (digits_value 0 (filteredYear fs)))
                 (Z.of_nat i + 1)))
  /\ (is_All (filteredMonth fs) = true \/ is_All (filteredYear fs) = true ->
      getDayOptions fs = [])
  /\ (forall d, In d (getDayOptions fs) -> 1 <= d <= 31).
Proof.
  assert (A : forall i, (i < 12)%nat ->
     filteredMonth fs = nth i MONTHS "" ->
     all_digits (filteredYear fs) = true -> nonempty (filteredYear fs) = true ->
     getDayOptions fs
     = one_to (days_in_month (date_year (digits_value 0 (filteredYear fs)))
                 (Z.of_nat i + 1))).
  { intros i Hi Hm Hd Hn. unfold getDayOptions.
    assert (Hall : is_All (filteredYear fs) = false).
    { unfold is_All. destruct (String.eqb_spec (filteredYear fs) "All") as [E |];
        [rewrite E in Hd; discriminate Hd | reflexivity]. }
    assert (Hidx : is_All (filteredMonth fs) = false
                   /\ indexOf (filteredMonth fs) MONTHS = Z.of_nat i).
    { rewrite Hm.
      do 12 (destruct i as [| i]; [split; reflexivity |]). lia. }
    destruct Hidx as [Hm1 Hm2].
    rewrite Hall, Hm1, Hm2, (parseInt_digits _ Hd Hn). cbn [orb].
    set (y := digits_value 0 (filteredYear fs)).
    unfold newDate. fold (date_year y).
    rewrite (last_day_of_month (date_year y) (Z.of_nat i) ltac:(lia)).
    pose proof (days_in_month_bounds (date_year y) (Z.of_nat i + 1)).
    destruct (civil_of_date (date_year y) (Z.of_nat i + 1)
                (days_in_month (date_year y) (Z.of_nat i + 1)) ltac:(lia) ltac:(lia))
      as (_ & _ & E).
    rewrite E. reflexivity. }
  split; [exact A |]. split.
  - intros H. unfold getDayOptions. destruct H as [H | H]; rewrite H;
      [reflexivity | apply orb_true_r || (rewrite orb_true_r; reflexivity)].
  - intros d. unfold getDayOptions.
    destruct (is_All (filteredMonth fs) || is_All (filteredYear fs)); [intros [] |].
    destruct (parseInt (filteredYear fs)) as [y |]; [| intros []].
    intros H. apply one_to_in in H. split; [lia |].
    unfold getDate in H.
    destruct H as [_ H]. revert H.
    generalize (day_number (newDate y (indexOf (filteredMonth fs) MONTHS + 1) 0)).
    intros z. pose proof (civil_day_range z) as R.
    destruct (civil_from_days z) as [[a b] c]. lia.
Qed.

Lemma day_options_are_the_days_of_the_month_witness :
  getDayOptions (onYearChange "2024" (onMonthChange "February" no_filters))
  = one_to (days_in_month (date_year (digits_value 0 "2024")) (Z.of_nat 1 + 1)).
Proof.
  apply (proj1 (day_options_are_the_days_of_the_month
                  (onYearChange "2024" (onMonthChange "February" no_filters))) 1%nat);
    [lia | reflexivity | reflexivity | reflexivity].
Defined.
